(** * The image-transformer worker: router, three handlers, prompt composition

    A shallow embedding of [src/index.js].  The worker is a [fetch] handler
    that routes on method and path to [analyzeImage], [generateImage] and
    [transformImage]; each of them awaits the AI binding once to three times
    inside one [try] block and answers with a [Response].

    JavaScript values are modelled as far as the worker inspects them:
    truthiness, string conversion in template literals, property lookup on an
    object literal (own properties first, then [Object.prototype]), the
    [FormData] entries, and the completion of every awaited call (a value or
    a thrown [Error]).  The gateway is an oracle whose calls are logged. *)

From stdpp Require Import base option list strings gmap pretty.
From Stdlib Require Import ZArith Strings.Ascii Strings.Byte.

Local Open Scope string_scope.
Local Open Scope Z_scope.

(** ** JavaScript values *)

Module JS.

(** A thrown value.  The handlers read nothing but [error.message]. *)
Record Error := { message : string }.

(** The way an evaluation or an awaited promise completes. *)
Inductive completion (A : Type) : Type :=
| Return (a : A)
| Throw (e : Error).
Arguments Return {A} a.
Arguments Throw {A} e.

(** The TypeErrors the engine itself raises in this program (V8 wording). *)
Definition TypeError (msg : string) : Error := {| message := msg |}.

(** A value parsed by [JSON.parse] / [request.json()].  A number is carried
    as its [Number::toString] rendering ("0.9", "42", "1e+21"): the worker
    only tests numbers for truthiness and prints them.  An object keeps its
    members in source order; a later duplicate key overrides an earlier one. *)
#[warnings="-register-all"]
Inductive json : Type :=
| JNull
| JBool (b : bool)
| JNumber (n : string)
| JString (s : string)
| JArray (elems : list json)
| JObject (props : list (string * json)).

(** [obj[key]] on own data properties: the last binding of [key]. *)
Fixpoint get_own {A} (key : string) (props : list (string * A)) : option A :=
  match props with
  | [] => None
  | (k, v) :: rest =>
      match get_own key rest with
      | Some w => Some w
      | None => if String.eqb k key then Some v else None
      end
  end.

(** ToBoolean.  [-0] and [0] both print as "0"; JSON has no NaN. *)
Definition ToBoolean (v : json) : bool :=
  match v with
  | JNull => false
  | JBool b => b
  | JNumber n => negb (String.eqb n "0")
  | JString s => negb (String.eqb s "")
  | JArray _ => true
  | JObject _ => true
  end.

(** ToString, as a template literal or a property key applies it.
    An array prints through [Array.prototype.join(",")], where [null]
    elements print as the empty string.  A plain object prints through
    [Object.prototype.toString] unless it has an own member [toString]:
    a parsed member is never callable, [valueOf] then yields the object
    itself, and OrdinaryToPrimitive throws. *)
Fixpoint ToString (v : json) : completion string :=
  match v with
  | JNull => Return "null"
  | JBool true => Return "true"
  | JBool false => Return "false"
  | JNumber n => Return n
  | JString s => Return s
  | JArray elems =>
      (fix join_from (k : nat) (l : list json) (R : string) : completion string :=
         match l with
         | [] => Return R
         | element :: l' =>
             let R := match k with 0%nat => R | S _ => R +:+ "," end in
             match (match element with JNull => Return "" | _ => ToString element end) with
             | Return next => join_from (S k) l' (R +:+ next)
             | Throw e => Throw e
             end
         end) 0%nat elems ""
  | JObject props =>
      match get_own "toString" props with
      | Some _ => Throw (TypeError "Cannot convert object to primitive value")
      | None => Return "[object Object]"
      end
  end.

(** A value that may be [undefined] (an absent member). *)
Definition ToBoolean_opt (v : option json) : bool :=
  match v with Some w => ToBoolean w | None => false end.

Definition ToString_opt (v : option json) : completion string :=
  match v with Some w => ToString w | None => Return "undefined" end.

(** *** Arrays *)

(** [Array.prototype.slice(start, end)] with its relative-index clamping. *)
Definition slice {A} (start end_ : Z) (arr : list A) : list A :=
  let len := Z.of_nat (length arr) in
  let k := if start <? 0 then Z.max (len + start) 0 else Z.min start len in
  let final := if end_ <? 0 then Z.max (len + end_) 0 else Z.min end_ len in
  take (Z.to_nat (Z.max (final - k) 0)) (drop (Z.to_nat k) arr).

(** [Array.prototype.join(sep)] on an array of strings: the loop of the
    language definition, with the separator put before every element but
    the first. *)
Fixpoint join_from (sep : string) (k : nat) (arr : list string) (R : string) : string :=
  match arr with
  | [] => R
  | element :: rest =>
      let R := match k with 0%nat => R | S _ => R +:+ sep end in
      join_from sep (S k) rest (R +:+ element)
  end.

Definition join (sep : string) (arr : list string) : string := join_from sep 0 arr "".

(** *** Property lookup on an object literal *)

(** What [obj[key]] can evaluate to when [obj] is an object literal whose
    own properties are strings. *)
Inductive property : Type :=
| PString (s : string)        (* an own data property *)
| PFunction (name : string)   (* a built-in function of Object.prototype *)
| PObjectPrototype            (* the [__proto__] accessor: Object.prototype itself *)
| PUndefined.

(** The members every object literal inherits from [Object.prototype]. *)
Definition Object_prototype (key : string) : property :=
  if String.eqb key "constructor" then PFunction "Object"
  else if String.eqb key "__proto__" then PObjectPrototype
  else if existsb (String.eqb key)
            ["__defineGetter__"; "__defineSetter__"; "hasOwnProperty";
             "__lookupGetter__"; "__lookupSetter__"; "isPrototypeOf";
             "propertyIsEnumerable"; "toString"; "valueOf"; "toLocaleString"]
       then PFunction key
  else PUndefined.

(** [obj[key]]: own properties, then the prototype chain. *)
Definition Get (obj : list (string * string)) (key : string) : property :=
  match get_own key obj with
  | Some s => PString s
  | None => Object_prototype key
  end.

Definition property_truthy (p : property) : bool :=
  match p with
  | PString s => negb (String.eqb s "")
  | PFunction _ => true
  | PObjectPrototype => true
  | PUndefined => false
  end.

(** [a || b] *)
Definition property_or (a b : property) : property :=
  if property_truthy a then a else b.

(** ToString of a looked-up property inside a template literal. *)
Definition property_ToString (p : property) : string :=
  match p with
  | PString s => s
  | PFunction name => "function " +:+ name +:+ "() { [native code] }"
  | PObjectPrototype => "[object Object]"
  | PUndefined => "undefined"
  end.

End JS.
Export JS.

(** ** The platform: requests, responses, the AI binding *)

Module Platform.

(** A [FormData] entry value: a string field or an uploaded [File], of which
    only the bytes matter here. *)
Inductive FormDataEntryValue : Type :=
| EntryString (s : string)
| EntryFile (bytes : list byte).

(** [FormData]: the entries in order; [get] yields the first entry of that
    name, or [null]. *)
Definition FormData := list (string * FormDataEntryValue).

Fixpoint FormData_get (name : string) (fd : FormData) : option FormDataEntryValue :=
  match fd with
  | [] => None
  | (k, v) :: rest => if String.eqb k name then Some v else FormData_get name rest
  end.

Definition entry_truthy (v : option FormDataEntryValue) : bool :=
  match v with
  | None => false
  | Some (EntryString s) => negb (String.eqb s "")
  | Some (EntryFile _) => true
  end.

(** [v || fallback] on an entry that may be [null]. *)
Definition entry_or (v : option FormDataEntryValue) (fallback : string) : FormDataEntryValue :=
  match v with
  | Some w => if entry_truthy v then w else EntryString fallback
  | None => EntryString fallback
  end.

Definition entry_ToString (v : FormDataEntryValue) : string :=
  match v with
  | EntryString s => s
  | EntryFile _ => "[object File]"
  end.

(** [await imageFile.arrayBuffer()] followed by [new Uint8Array(...)].
    Only a [File] has the method; on a string field the call is a TypeError. *)
Definition arrayBuffer (imageFile : option FormDataEntryValue) : completion (list byte) :=
  match imageFile with
  | Some (EntryFile bytes) => Return bytes
  | _ => Throw (TypeError "imageFile.arrayBuffer is not a function")
  end.

(** The inbound request, as far as the worker reads it: the method, the
    path of its URL, and how [request.formData()] and [request.json()]
    complete on its body. *)
Record Request := {
  method : string;
  url_pathname : string;
  formData : completion FormData;
  json_body : completion json;
}.

Inductive Body : Type :=
| BodyNull
| BodyText (s : string)
| BodyJSON (v : json)          (* the text [JSON.stringify] yields for [v] *)
| BodyBytes (b : list byte).

Record Response := {
  status : Z;
  headers : gmap string string;
  body : Body;
}.

(** [new Response(body, { headers })]: the status defaults to 200. *)
Definition Response_new (b : Body) (hs : gmap string string) : Response :=
  {| status := 200; headers := hs; body := b |}.

(** [Response.json(data, { status, headers })]: the body is the serialised
    [data]; a Content-Type of application/json is added unless the given
    headers already carry one. *)
Definition Response_json (data : json) (st : option Z) (hs : gmap string string) : Response :=
  {| status := default 200 st;
     headers := match hs !! "Content-Type" with
                | Some _ => hs
                | None => <["Content-Type" := "application/json"]> hs
                end;
     body := BodyJSON data |}.

(** One classifier result. [score] is a number, kept as its rendering. *)
Record ClassificationItem := { label : string; score : string }.

Definition ClassificationItem_json (item : ClassificationItem) : json :=
  JObject [("label", JString (label item)); ("score", JNumber (score item))].

Record Message := { role : string; content : string }.

(** The second argument of [env.AI.run], by shape. *)
Inductive AiInput : Type :=
| ImageInput (image : list byte)                         (* { image } *)
| ChatInput (messages : list Message) (max_tokens : Z)   (* { messages, max_tokens } *)
| SynthInput (prompt : string) (num_steps : Z).          (* { prompt, num_steps } *)

(** What the gateway resolves to: an array of classifier items, or an object
    that may have a string member [response] and a binary member [image]. *)
Inductive AiOutput : Type :=
| OutArray (items : list ClassificationItem)
| OutObject (response : option string) (image : option (list byte)).

Record AiCall := { call_model : string; call_input : AiInput }.

(** The AI binding: an opaque service.  Its answer may depend on the calls it
    has served so far. *)
Record Ai := { run : list AiCall → string → AiInput → completion AiOutput }.
Record Env := { AI : Ai }.

(** The receiver of [analysis.slice(...)]: only an array has the method, so
    the call is a TypeError on anything else. *)
Definition Array_receiver (analysis : AiOutput) : completion (list ClassificationItem) :=
  match analysis with
  | OutArray items => Return items
  | OutObject _ _ => Throw (TypeError "analysis.slice is not a function")
  end.

(** [descriptionResponse.response] *)
Definition get_response (o : AiOutput) : option string :=
  match o with
  | OutObject r _ => r
  | OutArray _ => None
  end.

(** [response.image] *)
Definition get_image (o : AiOutput) : option (list byte) :=
  match o with
  | OutObject _ i => i
  | OutArray _ => None
  end.

(** [s || fallback] on a string that may be [undefined]. *)
Definition string_or (s : option string) (fallback : string) : string :=
  match s with
  | Some v => if String.eqb v "" then fallback else v
  | None => fallback
  end.

(** The body a [Response] gets from a value that may be [undefined]. *)
Definition image_body (image : option (list byte)) : Body :=
  match image with
  | Some b => BodyBytes b
  | None => BodyNull
  end.

(** *** Async functions

    An async function runs against the log of gateway calls made so far and
    completes with a value or a thrown error. *)
Definition Async (A : Type) : Type := list AiCall → completion A * list AiCall.

#[export] Instance Async_ret : MRet Async := λ A a log, (Return a, log).
#[export] Instance Async_bind : MBind Async := λ A B f m log,
  match m log with
  | (Return a, log') => f a log'
  | (Throw e, log') => (Throw e, log')
  end.

(** [await] of a promise the platform has settled, or a synchronous
    evaluation that may throw. *)
Definition await {A} (c : completion A) : Async A := λ log, (c, log).

(** [await env.AI.run(model, input)] *)
Definition AI_run (env : Env) (model : string) (input : AiInput) : Async AiOutput :=
  λ log, (run (AI env) log model input,
          (log ++ [{| call_model := model; call_input := input |}])%list).

(** [try { body } catch (error) { handler }] *)
Definition try_catch {A} (body : Async A) (handler : Error → Async A) : Async A :=
  λ log,
    match body log with
    | (Return a, log') => (Return a, log')
    | (Throw e, log') => handler e log'
    end.

End Platform.
Export Platform.

(** ** The worker *)

Definition resnet_50 : string := "@cf/microsoft/resnet-50".
Definition phi_2 : string := "@cf/microsoft/phi-2".
Definition stable_diffusion_xl : string := "@cf/stabilityai/stable-diffusion-xl-base-1.0".

Definition corsHeaders : gmap string string :=
  {[ "Access-Control-Allow-Origin" := "*";
     "Access-Control-Allow-Methods" := "GET, POST, OPTIONS";
     "Access-Control-Allow-Headers" := "Content-Type" ]}.

(** [analysis.slice(0, 3).map(item => item.label).join(', ')] *)
Definition topLabels (analysis : list ClassificationItem) : string :=
  join ", " (map label (slice 0 3 analysis)).

(** The error envelope of a [catch] block. *)
Definition failure (what : string) (error : Error) (hs : gmap string string) : Response :=
  Response_json (JObject [("error", JString what); ("details", JString (message error))])
                (Some 500) hs.

(** The answer to a request without its required input. *)
Definition bad_request (what : string) (hs : gmap string string) : Response :=
  Response_json (JObject [("error", JString what)]) (Some 400) hs.

(** [{ prompt, style = "realistic" } = body]: destructuring [null] throws;
    on any other value the two members are read ([undefined] when absent;
    no built-in prototype has a member of either name), and the default
    replaces an [undefined] style only. *)
Definition destructure (body : json) : completion (option json * json) :=
  match body with
  | JNull => Throw (TypeError
      "Cannot destructure property 'prompt' of '(intermediate value)' as it is null.")
  | JObject props =>
      Return (get_own "prompt" props, default (JString "realistic") (get_own "style" props))
  | _ => Return (None, JString "realistic")
  end.

(** The style table of [generateImage]. *)
Definition generate_stylePrompts (prompt : string) : list (string * string) :=
  [ ("realistic", "photorealistic " +:+ prompt +:+ ", high detail, 4k");
    ("artistic", "artistic painting of " +:+ prompt +:+ ", creative, masterpiece");
    ("cartoon", "cartoon style " +:+ prompt +:+ ", animated, colorful");
    ("abstract", "abstract interpretation of " +:+ prompt +:+ ", modern art") ].

(** The style table of [transformImage]. *)
Definition transform_stylePrompts (finalPrompt : string) : list (string * string) :=
  [ ("realistic", "photorealistic " +:+ finalPrompt +:+ ", high detail");
    ("artistic", "artistic " +:+ finalPrompt +:+ ", painting style");
    ("cartoon", "cartoon " +:+ finalPrompt +:+ ", animated style");
    ("abstract", "abstract " +:+ finalPrompt +:+ ", modern art") ].

(** [stylePrompts[style] || stylePrompts.realistic], as the template literal
    of the synthesis call prints it. *)
Definition compose (stylePrompts : list (string * string)) (style : string) : string :=
  property_ToString (property_or (Get stylePrompts style) (Get stylePrompts "realistic")).

(** [`${styled} timestamp:${Date.now()}`] with [num_steps: 20] *)
Definition synthesis_input (styled : string) (now : Z) : AiInput :=
  SynthInput (styled +:+ " timestamp:" +:+ pretty now) 20.

(** [customPrompt ? `${baseDescription}. ${customPrompt}` : baseDescription] *)
Definition transform_finalPrompt (baseDescription : string) (customPrompt : FormDataEntryValue)
  : string :=
  if entry_truthy (Some customPrompt)
  then baseDescription +:+ ". " +:+ entry_ToString customPrompt
  else baseDescription.

Definition analyze_content (topLabels : string) : string :=
  "Describe this image in detail for AI image generation. The image contains: "
  +:+ topLabels +:+
  ". Provide a comprehensive description including objects, colors, style, lighting, and composition.".

Definition transform_content (topLabels : string) (customPrompt : FormDataEntryValue) : string :=
  "Describe this image for AI generation. Content: " +:+ topLabels +:+ ". "
  +:+ (if entry_truthy (Some customPrompt)
       then "Also: " +:+ entry_ToString customPrompt else "").

(** The three orchestration handlers. *)
Inductive endpoint : Type := Analyze | Generate | Transform.

(** The fixed first member of each handler's error envelope. *)
Definition failure_text (h : endpoint) : string :=
  match h with
  | Analyze => "Image analysis failed"
  | Generate => "Image generation failed"
  | Transform => "Image transformation failed"
  end.

Section Worker.

(** The page that the template literal of [getHTML] is written to denote.
    In index.js that literal opens at line 209 and is closed by the
    backtick of line 579, column 37, in the middle of the client script, so
    the module as written is not accepted by the parser and serves no
    request.  The router and the handlers below are the functions of the
    module as they read, with the page taken as given. *)
Variable getHTML : string.
(** What [Date.now()] returns while the request is served (milliseconds). *)
Variable Date_now : Z.

(** The [try] block of [analyzeImage]. *)
Definition analyzeImage_try (env : Env) (request : Request) (hs : gmap string string)
  : Async Response :=
  formData ← await (formData request);
  let imageFile := FormData_get "image" formData in
  if negb (entry_truthy imageFile) then mret (bad_request "No image provided" hs)
  else
    imageUint8 ← await (arrayBuffer imageFile);
    analysis ← AI_run env resnet_50 (ImageInput imageUint8);
    items ← await (Array_receiver analysis);
    let topLabels := topLabels items in
    descriptionResponse ← AI_run env phi_2
      (ChatInput [{| role := "user"; content := analyze_content topLabels |}] 200);
    let description :=
      string_or (get_response descriptionResponse) ("An image featuring " +:+ topLabels) in
    mret (Response_json
            (JObject [("analysis", JArray (map ClassificationItem_json items));
                      ("description", JString description);
                      ("prompt_suggestion", JString ("Create a new image: " +:+ description))])
            None hs).

Definition analyzeImage (env : Env) (request : Request) (hs : gmap string string)
  : Async Response :=
  try_catch (analyzeImage_try env request hs)
            (λ error, mret (failure "Image analysis failed" error hs)).

(** The [try] block of [generateImage]. *)
Definition generateImage_try (env : Env) (request : Request) (hs : gmap string string)
  : Async Response :=
  body ← await (json_body request);
  '(prompt, style) ← await (destructure body);
  if negb (ToBoolean_opt prompt) then mret (bad_request "Prompt is required" hs)
  else
    prompt ← await (ToString_opt prompt);
    let stylePrompts := generate_stylePrompts prompt in
    style ← await (ToString style);
    let finalPrompt := compose stylePrompts style in
    response ← AI_run env stable_diffusion_xl (synthesis_input finalPrompt Date_now);
    mret (Response_new (image_body (get_image response))
                       (<["Content-Type" := "image/png"]> hs)).

Definition generateImage (env : Env) (request : Request) (hs : gmap string string)
  : Async Response :=
  try_catch (generateImage_try env request hs)
            (λ error, mret (failure "Image generation failed" error hs)).

(** The [try] block of [transformImage]. *)
Definition transformImage_try (env : Env) (request : Request) (hs : gmap string string)
  : Async Response :=
  formData ← await (formData request);
  let imageFile := FormData_get "image" formData in
  let customPrompt := entry_or (FormData_get "prompt" formData) "" in
  let style := entry_or (FormData_get "style" formData) "realistic" in
  if negb (entry_truthy imageFile) then mret (bad_request "No image provided" hs)
  else
    imageUint8 ← await (arrayBuffer imageFile);
    analysis ← AI_run env resnet_50 (ImageInput imageUint8);
    items ← await (Array_receiver analysis);
    let topLabels := topLabels items in
    descriptionResponse ← AI_run env phi_2
      (ChatInput [{| role := "user"; content := transform_content topLabels customPrompt |}] 150);
    let baseDescription :=
      string_or (get_response descriptionResponse) ("An image with " +:+ topLabels) in
    let finalPrompt := transform_finalPrompt baseDescription customPrompt in
    let stylePrompts := transform_stylePrompts finalPrompt in
    let styledPrompt := compose stylePrompts (entry_ToString style) in
    imageResponse ← AI_run env stable_diffusion_xl (synthesis_input styledPrompt Date_now);
    mret (Response_new (image_body (get_image imageResponse))
                       (<["Content-Type" := "image/png"]> hs)).

Definition transformImage (env : Env) (request : Request) (hs : gmap string string)
  : Async Response :=
  try_catch (transformImage_try env request hs)
            (λ error, mret (failure "Image transformation failed" error hs)).

(** The capability listing of the last [return] of [fetch]. *)
Definition listing : json :=
  JObject [("message", JString "AI Image Transformer API");
           ("endpoints", JArray [JString "GET  / - HTML UI";
                                 JString "POST /api/analyze-image - Analyze image to text";
                                 JString "POST /api/generate-image - Generate image from text";
                                 JString "POST /api/transform-image - Complete workflow"])].

Definition fetch (request : Request) (env : Env) : Async Response :=
  if String.eqb (method request) "OPTIONS" then mret (Response_new BodyNull corsHeaders)
  else
    let path := url_pathname request in
    if String.eqb path "/" && String.eqb (method request) "GET"
    then mret (Response_new (BodyText getHTML) (<["Content-Type" := "text/html"]> corsHeaders))
    else if String.eqb path "/api/analyze-image" && String.eqb (method request) "POST"
    then analyzeImage env request corsHeaders
    else if String.eqb path "/api/generate-image" && String.eqb (method request) "POST"
    then generateImage env request corsHeaders
    else if String.eqb path "/api/transform-image" && String.eqb (method request) "POST"
    then transformImage env request corsHeaders
    else mret (Response_new (BodyJSON listing)
                            (<["Content-Type" := "application/json"]> corsHeaders)).

(** The handlers and their [try] blocks, by endpoint. *)
Definition handler (h : endpoint) : Env → Request → gmap string string → Async Response :=
  match h with
  | Analyze => analyzeImage
  | Generate => generateImage
  | Transform => transformImage
  end.

Definition handler_try (h : endpoint) : Env → Request → gmap string string → Async Response :=
  match h with
  | Analyze => analyzeImage_try
  | Generate => generateImage_try
  | Transform => transformImage_try
  end.

End Worker.

(** ** Vocabulary of the properties *)

(** A request that lacks the input its handler requires: no [image] entry
    in the form, or a JSON object whose [prompt] is absent or empty. *)
Inductive missing_input : endpoint → Request → Prop :=
| missing_image_analyze request fd :
    formData request = Return fd →
    FormData_get "image" fd = None →
    missing_input Analyze request
| missing_image_transform request fd :
    formData request = Return fd →
    FormData_get "image" fd = None →
    missing_input Transform request
| missing_prompt request props :
    json_body request = Return (JObject props) →
    get_own "prompt" props = None ∨ get_own "prompt" props = Some (JString "") →
    missing_input Generate request.

(** The error with which reading the body fails, if it does: [request.json()]
    for [generateImage], [request.formData()] for the two others. *)
Definition parse_failure (h : endpoint) (request : Request) : option Error :=
  match h with
  | Generate => match json_body request with Throw e => Some e | Return _ => None end
  | Analyze | Transform => match formData request with Throw e => Some e | Return _ => None end
  end.

(** The routing table as the interface description lists it: a preflight
    row for every OPTIONS request, four rows keyed by method and path, and
    the capability listing for everything else. *)
Inductive route : Type := Preflight | Page | Handler (h : endpoint) | Listing.

Definition routing_rows : list (string * string * route) :=
  [ ("GET", "/", Page);
    ("POST", "/api/analyze-image", Handler Analyze);
    ("POST", "/api/generate-image", Handler Generate);
    ("POST", "/api/transform-image", Handler Transform) ].

Definition route_of (m path : string) : route :=
  if decide (m = "OPTIONS") then Preflight
  else match filter (λ row, row.1 = (m, path)) routing_rows with
       | row :: _ => row.2
       | [] => Listing
       end.

(** What each row of the table answers. *)
Definition serve (getHTML : string) (now : Z) (r : route) (request : Request) (env : Env)
  : Async Response :=
  match r with
  | Preflight =>
      mret {| status := 200; headers := corsHeaders; body := BodyNull |}
  | Page =>
      mret {| status := 200;
              headers := <["Content-Type" := "text/html"]> corsHeaders;
              body := BodyText getHTML |}
  | Handler h => handler now h env request corsHeaders
  | Listing =>
      mret {| status := 200;
              headers := <["Content-Type" := "application/json"]> corsHeaders;
              body := BodyJSON listing |}
  end.

(** The calls a computation adds to the log it started from. *)
Definition calls_made {A} (c : Async A) (log : list AiCall) (calls : list AiCall) : Prop :=
  (c log).2 = (log ++ calls)%list.

(** The style table of the two handlers that synthesise an image. *)
Definition style_table (h : endpoint) : string → list (string * string) :=
  match h with
  | Transform => transform_stylePrompts
  | _ => generate_stylePrompts
  end.

(** "Description = generation output if non-empty, else a fallback string". *)
Definition description_of (output : option string) (fallback : string) : string :=
  match output with
  | Some (String a s) => String a s
  | _ => fallback
  end.

(** The prompt of the last call in a log, when that is a synthesis call. *)
Definition last_prompt (log : list AiCall) : option string :=
  match last log with
  | Some {| call_input := SynthInput prompt _ |} => Some prompt
  | _ => None
  end.

(** The four keys of both style tables. *)
Definition known_styles : list string := ["realistic"; "artistic"; "cartoon"; "abstract"].

(** The names of the members an object literal inherits. *)
Definition inherited_names : list string :=
  [ "constructor"; "__proto__"; "__defineGetter__"; "__defineSetter__"; "hasOwnProperty";
    "__lookupGetter__"; "__lookupSetter__"; "isPrototypeOf"; "propertyIsEnumerable";
    "toString"; "valueOf"; "toLocaleString" ].

(** The models a handler awaits, in the order of its source text. *)
Definition call_plan (h : endpoint) : list string :=
  match h with
  | Analyze => [resnet_50; phi_2]
  | Generate => [stable_diffusion_xl]
  | Transform => [resnet_50; phi_2; stable_diffusion_xl]
  end.

(** One logged call. *)
Definition call (model : string) (input : AiInput) : AiCall :=
  {| call_model := model; call_input := input |}.

(** The single message of the two description requests. *)
Definition user_says (text : string) : list Message := [{| role := "user"; content := text |}].

(** The values of [prompt] that [!prompt] rejects. *)
Definition falsy_prompts : list (option json) :=
  [None; Some JNull; Some (JBool false); Some (JNumber "0"); Some (JString "")].

(** The three API paths. *)
Definition api_paths : list string :=
  ["/api/analyze-image"; "/api/generate-image"; "/api/transform-image"].

(** The header that names the media type of a response. *)
Definition content_type (r : Response) : option string := headers r !! "Content-Type".

(** The logged form of the first two calls of [analyzeImage] and
    [transformImage], and of the synthesis call. *)
Definition classify_call (bytes : list byte) : AiCall :=
  call resnet_50 (ImageInput bytes).

Definition analyze_describe_call (items : list ClassificationItem) : AiCall :=
  call phi_2 (ChatInput (user_says (analyze_content (topLabels items))) 200).

Definition transform_describe_call (items : list ClassificationItem) (fd : FormData) : AiCall :=
  call phi_2
    (ChatInput (user_says (transform_content (topLabels items)
                                             (entry_or (FormData_get "prompt" fd) ""))) 150).

Definition synthesis_call (styled : string) (now : Z) : AiCall :=
  call stable_diffusion_xl (SynthInput (styled +:+ " timestamp:" +:+ pretty now) 20).

(** A request on its way to the synthesis call: what the request and the
    gateway must have given for a handler to reach that call, the styled
    prompt composed from the request's own text and style on that way, and
    the calls logged before it.  [analyzeImage] has no such call. *)
Inductive reaches_synthesis (env : Env) (request : Request) (log : list AiCall)
  : endpoint → string → list AiCall → Prop :=
| generate_reaches props prompt p s :
    json_body request = Return (JObject props) →
    get_own "prompt" props = Some prompt →
    ToBoolean prompt = true →
    ToString prompt = Return p →
    ToString (default (JString "realistic") (get_own "style" props)) = Return s →
    reaches_synthesis env request log Generate (compose (generate_stylePrompts p) s) []
| transform_reaches fd bytes items text :
    formData request = Return fd →
    FormData_get "image" fd = Some (EntryFile bytes) →
    run (AI env) log resnet_50 (ImageInput bytes) = Return (OutArray items) →
    run (AI env) (log ++ [classify_call bytes])%list phi_2
        (call_input (transform_describe_call items fd)) = Return text →
    reaches_synthesis env request log Transform
      (compose
         (transform_stylePrompts
            (transform_finalPrompt
               (description_of (get_response text) ("An image with " +:+ topLabels items))
               (entry_or (FormData_get "prompt" fd) "")))
         (entry_ToString (entry_or (FormData_get "style" fd) "realistic")))
      [classify_call bytes; transform_describe_call items fd].

(** The steps of a handler's [try] block that can throw, one constructor
    for each: what makes the step throw (the body of the request, an entry
    of the form, a member of the JSON object, an answer of the gateway), the
    error it throws, and the log of calls at that point. *)
Inductive throwing_step (now : Z) (env : Env) (request : Request) (log : list AiCall)
  : endpoint → Error → list AiCall → Prop :=
| formData_rejects h e :
    h ≠ Generate →
    formData request = Throw e →
    throwing_step now env request log h e log
| arrayBuffer_missing h fd a s :
    h ≠ Generate →
    formData request = Return fd →
    FormData_get "image" fd = Some (EntryString (String a s)) →
    throwing_step now env request log h
      (TypeError "imageFile.arrayBuffer is not a function") log
| classifier_throws h fd bytes e :
    h ≠ Generate →
    formData request = Return fd →
    FormData_get "image" fd = Some (EntryFile bytes) →
    run (AI env) log resnet_50 (ImageInput bytes) = Throw e →
    throwing_step now env request log h e (log ++ [classify_call bytes])%list
| analysis_not_an_array h fd bytes response image :
    h ≠ Generate →
    formData request = Return fd →
    FormData_get "image" fd = Some (EntryFile bytes) →
    run (AI env) log resnet_50 (ImageInput bytes) = Return (OutObject response image) →
    throwing_step now env request log h
      (TypeError "analysis.slice is not a function") (log ++ [classify_call bytes])%list
| analyze_description_throws fd bytes items e :
    formData request = Return fd →
    FormData_get "image" fd = Some (EntryFile bytes) →
    run (AI env) log resnet_50 (ImageInput bytes) = Return (OutArray items) →
    run (AI env) (log ++ [classify_call bytes])%list phi_2
        (call_input (analyze_describe_call items)) = Throw e →
    throwing_step now env request log Analyze e
      (log ++ [classify_call bytes; analyze_describe_call items])%list
| transform_description_throws fd bytes items e :
    formData request = Return fd →
    FormData_get "image" fd = Some (EntryFile bytes) →
    run (AI env) log resnet_50 (ImageInput bytes) = Return (OutArray items) →
    run (AI env) (log ++ [classify_call bytes])%list phi_2
        (call_input (transform_describe_call items fd)) = Throw e →
    throwing_step now env request log Transform e
      (log ++ [classify_call bytes; transform_describe_call items fd])%list
| json_rejects e :
    json_body request = Throw e →
    throwing_step now env request log Generate e log
| null_destructured :
    json_body request = Return JNull →
    throwing_step now env request log Generate
      (TypeError "Cannot destructure property 'prompt' of '(intermediate value)' as it is null.")
      log
| prompt_not_printable props prompt e :
    json_body request = Return (JObject props) →
    get_own "prompt" props = Some prompt →
    ToBoolean prompt = true →
    ToString prompt = Throw e →
    throwing_step now env request log Generate e log
| style_not_printable props prompt p e :
    json_body request = Return (JObject props) →
    get_own "prompt" props = Some prompt →
    ToBoolean prompt = true →
    ToString prompt = Return p →
    ToString (default (JString "realistic") (get_own "style" props)) = Throw e →
    throwing_step now env request log Generate e log
| synthesis_throws h styled before e :
    reaches_synthesis env request log h styled before →
    run (AI env) (log ++ before)%list stable_diffusion_xl
        (call_input (synthesis_call styled now)) = Throw e →
    throwing_step now env request log h e (log ++ before ++ [synthesis_call styled now])%list.

(** POST /api/generate-image with the JSON body [null]. *)
Definition null_request : Request :=
  {| method := "POST"; url_pathname := "/api/generate-image";
     formData := Throw (TypeError "not a form");
     json_body := Return JNull |}.

(** ** Sample requests and gateways *)

Module Samples.

(** POST /api/generate-image with [{"prompt": "a cat", "style": style}]. *)
Definition a_cat_in_style (style : string) : Request :=
  {| method := "POST"; url_pathname := "/api/generate-image";
     formData := Throw (TypeError "not a form");
     json_body := Return (JObject [("prompt", JString "a cat"); ("style", JString style)]) |}.

(** POST /api/generate-image with [{"style": "cartoon"}]. *)
Definition no_prompt : Request :=
  {| method := "POST"; url_pathname := "/api/generate-image";
     formData := Throw (TypeError "not a form");
     json_body := Return (JObject [("style", JString "cartoon")]) |}.

(** POST /api/transform-image with an image file and a style. *)
Definition photo : list byte := [x89; x50; x4e; x47]%byte.

Definition photo_in_style (style : string) : Request :=
  {| method := "POST"; url_pathname := "/api/transform-image";
     formData := Return [("image", EntryFile photo); ("style", EntryString style)];
     json_body := Throw (TypeError "not JSON") |}.

(** A request whose body no parser accepts. *)
Definition garbled : Request :=
  {| method := "POST"; url_pathname := "/api/analyze-image";
     formData := Throw (TypeError "Unrecognized Content-Type header value.");
     json_body := Throw {| message := "Unexpected end of JSON input" |} |}.

Definition tabby : list ClassificationItem := [{| label := "tabby"; score := "0.9" |}].

(** A gateway that sees a cat, describes it, and paints two bytes. *)
Definition studio : Env :=
  {| AI := {| run := λ _ model _,
       if String.eqb model resnet_50 then Return (OutArray tabby)
       else if String.eqb model phi_2 then Return (OutObject (Some "A cat") None)
       else Return (OutObject None (Some [x01; x02]%byte)) |} |}.

(** The same gateway with the synthesis model out of order. *)
Definition studio_without_paint : Env :=
  {| AI := {| run := λ _ model _,
       if String.eqb model resnet_50 then Return (OutArray tabby)
       else if String.eqb model phi_2 then Return (OutObject (Some "A cat") None)
       else Throw {| message := "upstream timeout" |} |} |}.

End Samples.

(** ** Arrays and strings *)

Lemma slice_0_take {A} (n : nat) (arr : list A) :
  slice 0 (Z.of_nat n) arr = take n arr.
Proof.
  unfold slice. simpl.
  destruct (Z.ltb_spec (Z.of_nat n) 0) as [Hneg|_]; [lia|].
  rewrite (Z.min_l 0) by lia. rewrite Z.sub_0_r, Z.max_l by lia. simpl. rewrite drop_0.
  destruct (Z.min_spec (Z.of_nat n) (Z.of_nat (length arr))) as [[Hlt ->]|[Hge ->]].
  - by rewrite Nat2Z.id.
  - rewrite Nat2Z.id. rewrite !take_ge; [done|lia|lia].
Qed.

Lemma append_cons (x : Ascii.ascii) (a b : string) :
  String x a +:+ b = String x (a +:+ b).
Proof. reflexivity. Qed.

Lemma append_empty_l (a : string) : "" +:+ a = a.
Proof. reflexivity. Qed.

Lemma append_assoc (a b c : string) : (a +:+ b) +:+ c = a +:+ (b +:+ c).
Proof.
  induction a as [|x a IH]; [done|].
  by rewrite !append_cons, IH.
Qed.

Lemma append_empty_r (a : string) : a +:+ "" = a.
Proof.
  induction a as [|x a IH]; [done|].
  by rewrite append_cons, IH.
Qed.

(** Once an element has been appended, the loop of [join] prefixes the
    separator to every remaining element. *)
Lemma join_from_S sep k arr R :
  join_from sep (S k) arr R =
  R +:+ match arr with [] => "" | _ => sep +:+ String.concat sep arr end.
Proof.
  revert k R. induction arr as [|x arr IH]; intros k R; simpl.
  - by rewrite append_empty_r.
  - rewrite IH. destruct arr as [|y arr]; simpl.
    + by rewrite !append_empty_r, append_assoc.
    + by rewrite !append_assoc.
Qed.

Lemma join_concat sep arr : join sep arr = String.concat sep arr.
Proof.
  unfold join. destruct arr as [|x arr]; simpl; [done|].
  rewrite join_from_S. destruct arr; simpl; [by rewrite append_empty_r|done].
Qed.

(** ** The timestamp suffix *)

(** The characters of a string. *)
Abbreviation chars := String.list_ascii_of_string.

Lemma chars_append (a b : string) : chars (a +:+ b) = (chars a ++ chars b)%list.
Proof.
  induction a as [|x a IH]; [done|].
  rewrite append_cons. simpl. by rewrite IH.
Qed.

Lemma chars_inj (a b : string) : chars a = chars b → a = b.
Proof.
  intros H. rewrite <-(String.string_of_list_ascii_of_string a),
    <-(String.string_of_list_ascii_of_string b). by rewrite H.
Qed.

(** What follows the last occurrence of a character is determined by the
    whole list. *)
Lemma after_last_occurrence {A} (c : A) (l1 l2 r1 r2 : list A) :
  c ∉ r1 → c ∉ r2 →
  (l1 ++ c :: r1 = l2 ++ c :: r2)%list → r1 = r2.
Proof.
  intros H1 H2. revert l2.
  induction l1 as [|x l1 IH]; intros [|y l2] Heq; simplify_eq/=.
  - done.
  - exfalso. apply H1. set_solver.
  - exfalso. apply H2. set_solver.
  - by eapply IH.
Qed.

Definition colon : Ascii.ascii := ":"%char.

Lemma pretty_N_go_colon (x : N) (s : string) :
  colon ∉ chars s → colon ∉ chars (pretty_N_go x s).
Proof.
  revert s. induction (N.lt_wf_0 x) as [x _ IH]; intros s Hs.
  destruct (decide (x = 0)%N) as [->|Hx]; [by rewrite pretty_N_go_0|].
  rewrite pretty_N_go_step by lia.
  apply IH; [apply N.div_lt; lia|].
  simpl. rewrite not_elem_of_cons. split; [|done].
  unfold pretty_N_char, colon. by repeat case_match.
Qed.

Lemma pretty_N_colon (x : N) : colon ∉ chars (pretty x).
Proof.
  unfold pretty, pretty_N. case_decide.
  - apply not_elem_of_cons; split; [done|apply not_elem_of_nil].
  - apply pretty_N_go_colon, not_elem_of_nil.
Qed.

Lemma pretty_Z_colon (z : Z) : colon ∉ chars (pretty z).
Proof.
  unfold pretty, pretty_Z. destruct z as [|p|p].
  - apply not_elem_of_cons; split; [done|apply not_elem_of_nil].
  - apply pretty_N_colon.
  - rewrite chars_append. simpl. rewrite not_elem_of_cons. split; [done|].
    apply pretty_N_colon.
Qed.

(** Two prompts that end in the timestamps of two distinct instants differ,
    whatever precedes the suffix. *)
Lemma timestamp_suffix_inj (s1 s2 : string) (t1 t2 : Z) :
  s1 +:+ " timestamp:" +:+ pretty t1 = s2 +:+ " timestamp:" +:+ pretty t2 → t1 = t2.
Proof.
  intros Heq. apply (inj pretty), chars_inj.
  apply (f_equal chars) in Heq. rewrite !chars_append in Heq.
  change (chars " timestamp:") with (chars " timestamp" ++ [colon])%list in Heq.
  rewrite <-!app_assoc in Heq.
  rewrite (app_assoc (chars s1)), (app_assoc (chars s2)) in Heq.
  eapply (after_last_occurrence colon); [| |exact Heq]; apply pretty_Z_colon.
Qed.

(** ** Running the handlers *)

(** Unfolds the plumbing of an async function down to matches on the
    completions of its awaited steps. *)
Ltac async_unfold :=
  unfold handler, handler_try, analyzeImage, generateImage, transformImage,
    analyzeImage_try, generateImage_try, transformImage_try,
    try_catch, mbind, Async_bind, mret, Async_ret, await, AI_run in *.

Lemma Response_json_headers data st hs k :
  k ≠ "Content-Type" → headers (Response_json data st hs) !! k = hs !! k.
Proof.
  intros Hk. unfold Response_json. simpl.
  case_match; [done|]. by rewrite lookup_insert_ne.
Qed.

(** A handler never throws: whatever the request and the gateway do, it
    resolves to one response, which carries the headers it was given. *)
Lemma handler_resolves (now : Z) (h : endpoint) env request hs log :
  ∃ r log', handler now h env request hs log = (Return r, log')
            ∧ ∀ k, k ≠ "Content-Type" → headers r !! k = hs !! k.
Proof.
  destruct h; async_unfold; simpl.
  all: repeat case_match; simplify_eq/=; eexists _, _; (split; [reflexivity|]).
  all: intros k Hk; unfold failure, bad_request;
    rewrite ?Response_json_headers by done; try done.
  all: simpl; by rewrite lookup_insert_ne.
Qed.

Import Samples.

(** ** Prompt composition *)

(** A style that names neither an own member of the table nor a member of
    [Object.prototype] composes as [realistic] does. *)
Lemma compose_fallback (stylePrompts : list (string * string)) (style : string) :
  get_own style stylePrompts = None →
  Object_prototype style = PUndefined →
  compose stylePrompts style = compose stylePrompts "realistic".
Proof.
  intros Hown Hproto. unfold compose. f_equal.
  unfold Get at 1. rewrite Hown, Hproto.
  unfold property_or. simpl. by destruct (property_truthy _).
Qed.

(** C1: for a style outside {realistic, artistic, cartoon, abstract} the
    composed prompt should be the one of [realistic].  It is not for a style
    that names a member of [Object.prototype]: with style [toString] the
    Generate handler sends the source text of the built-in function, and so
    does the Transform handler with style [constructor]. *)
Theorem inherited_style_is_not_realistic :
  last_prompt (generateImage 0 studio (a_cat_in_style "toString") corsHeaders []).2
    = Some "function toString() { [native code] } timestamp:0"
  ∧ last_prompt (generateImage 0 studio (a_cat_in_style "realistic") corsHeaders []).2
    = Some "photorealistic a cat, high detail, 4k timestamp:0"
  ∧ last_prompt (transformImage 0 studio (photo_in_style "constructor") corsHeaders []).2
    = Some "function Object() { [native code] } timestamp:0"
  ∧ last_prompt (transformImage 0 studio (photo_in_style "realistic") corsHeaders []).2
    = Some "photorealistic A cat, high detail timestamp:0".
Proof. split_and!; vm_compute; reflexivity. Qed.


(** C5: [topLabels] is the labels of the first three results, in their
    order, joined with a comma and a space. *)
Theorem topLabels_first_three (analysis : list ClassificationItem) :
  topLabels analysis = String.concat ", " (map label (take 3 analysis))
  ∧ topLabels [ {| label := "cat"; score := "0.9" |}; {| label := "dog"; score := "0.5" |};
                {| label := "tree"; score := "0.3" |}; {| label := "sky"; score := "0.1" |} ]
    = "cat, dog, tree".
Proof.
  split; [|reflexivity].
  unfold topLabels. by rewrite join_concat, (slice_0_take 3).
Qed.

Lemma get_own_cons_ne {A} (k key : string) (v : A) (rest : list (string * A)) :
  k ≠ key → get_own key ((k, v) :: rest) = get_own key rest.
Proof.
  intros Hne. cbn [get_own]. destruct (get_own key rest); [done|].
  by rewrite (proj2 (String.eqb_neq k key) Hne).
Qed.

Lemma compose_unknown_style (h : endpoint) (prompt style : string) :
  style ∉ ["realistic"; "artistic"; "cartoon"; "abstract"] →
  Object_prototype style = PUndefined →
  compose (style_table h prompt) style = compose (style_table h prompt) "realistic".
Proof.
  intros Hstyle Hproto. apply compose_fallback; [|done].
  rewrite !not_elem_of_cons in Hstyle. destruct Hstyle as (H1 & H2 & H3 & H4 & _).
  destruct h; unfold style_table, generate_stylePrompts, transform_stylePrompts;
    by rewrite !get_own_cons_ne by congruence.
Qed.

(** ** Errors *)

(** The [catch] block: when the [try] block of a handler ends with a thrown
    error, the handler resolves to the response built in its [catch] block:
    status 500 and the JSON object holding the handler's fixed text under
    [error] and the thrown error's message under [details]. *)
Lemma handler_catches (now : Z) (h : endpoint) env request hs log e log' :
  handler_try now h env request hs log = (Throw e, log') →
  handler now h env request hs log = (Return (failure (failure_text h) e hs), log')
  ∧ status (failure (failure_text h) e hs) = 500
  ∧ body (failure (failure_text h) e hs)
    = BodyJSON (JObject [("error", JString (failure_text h));
                         ("details", JString (message e))]).
Proof.
  intros Hthrow. split_and!; [|done..].
  destruct h; unfold handler, analyzeImage, generateImage, transformImage, try_catch;
    unfold handler_try in Hthrow; by rewrite Hthrow.
Qed.

(** The synthesis model fails after the two other calls succeeded. *)
Lemma handler_catches_witness :
  let failed := handler_try 0 Transform studio_without_paint (photo_in_style "realistic")
                            corsHeaders [] in
  failed = (Throw {| message := "upstream timeout" |}, failed.2)
  ∧ length failed.2 = 3%nat
  ∧ handler 0 Transform studio_without_paint (photo_in_style "realistic") corsHeaders []
    = (Return (failure "Image transformation failed" {| message := "upstream timeout" |}
                       corsHeaders), failed.2).
Proof.
  assert (handler_try 0 Transform studio_without_paint (photo_in_style "realistic")
                      corsHeaders []
          = (Throw {| message := "upstream timeout" |},
             (handler_try 0 Transform studio_without_paint (photo_in_style "realistic")
                          corsHeaders []).2)) as Hthrow
    by (vm_compute; reflexivity).
  split_and!; [exact Hthrow|reflexivity|].
  exact (proj1 (handler_catches 0 Transform studio_without_paint
                  (photo_in_style "realistic") corsHeaders [] _ _ Hthrow)).
Defined.


(** Conversely, status 500 is the mark of the [catch] block alone: the
    responses of the [try] blocks have status 200 or 400. *)
Lemma status_500_only_from_catch (now : Z) (h : endpoint) env request hs log r log' :
  handler now h env request hs log = (Return r, log') →
  status r = 500 →
  ∃ e, handler_try now h env request hs log = (Throw e, log').
Proof.
  destruct h; async_unfold; intros Hrun Hstatus.
  all: repeat case_match; simplify_eq/=; eauto.
Qed.

(** A JSON body that is the literal [null] cannot be destructured: the
    TypeError is caught like any other. *)
Lemma null_body_is_caught (now : Z) env hs log :
  generateImage now env
    {| method := "POST"; url_pathname := "/api/generate-image";
       formData := Throw (TypeError "not a form"); json_body := Return JNull |} hs log
  = (Return (failure "Image generation failed"
               (TypeError
                  "Cannot destructure property 'prompt' of '(intermediate value)' as it is null.")
               hs), log).
Proof. reflexivity. Qed.

(** X19: A form without an [image] entry, and a JSON object whose [prompt]
    is absent or empty, are answered with status 400 and a JSON object with
    the member [error]; the gateway is not called (the log of calls is
    returned as it was). *)
Theorem missing_input_rejected (now : Z) (h : endpoint) env request hs log :
  missing_input h request →
  ∃ what, handler now h env request hs log = (Return (bad_request what hs), log)
          ∧ status (bad_request what hs) = 400
          ∧ body (bad_request what hs) = BodyJSON (JObject [("error", JString what)]).
Proof.
  intros [request' fd Hfd Himage | request' fd Hfd Himage | request' props Hbody Hprompt].
  - exists "No image provided". split_and!; [|done..].
    async_unfold. by rewrite Hfd, Himage.
  - exists "No image provided". split_and!; [|done..].
    async_unfold. by rewrite Hfd, Himage.
  - exists "Prompt is required". split_and!; [|done..].
    async_unfold. rewrite Hbody. simpl. by destruct Hprompt as [-> | ->].
Qed.

Lemma missing_input_rejected_witness :
  missing_input Generate no_prompt
  ∧ ∃ what, handler 0 Generate studio no_prompt corsHeaders []
            = (Return (bad_request what corsHeaders), [])
            ∧ status (bad_request what corsHeaders) = 400
            ∧ body (bad_request what corsHeaders) = BodyJSON (JObject [("error", JString what)]).
Proof.
  assert (missing_input Generate no_prompt) as Hmissing.
  { apply (missing_prompt no_prompt [("style", JString "cartoon")]); [reflexivity|].
    left. reflexivity. }
  split; [exact Hmissing|].
  exact (missing_input_rejected 0 Generate studio no_prompt corsHeaders [] Hmissing).
Defined.


(** C10: when the body cannot be read at all, the handler answers with its
    500 envelope carrying the parser's message, not with a 400, and without
    calling the gateway: the body is read inside the [try] block. *)
Theorem unreadable_body_is_500 (now : Z) (h : endpoint) env request hs log e :
  parse_failure h request = Some e →
  handler now h env request hs log = (Return (failure (failure_text h) e hs), log)
  ∧ status (failure (failure_text h) e hs) = 500.
Proof.
  intros Hparse. split; [|done].
  destruct h; unfold parse_failure in Hparse; async_unfold;
    case_match; by simplify_eq.
Qed.

Lemma unreadable_body_is_500_witness :
  parse_failure Generate garbled = Some {| message := "Unexpected end of JSON input" |}
  ∧ handler 0 Generate studio garbled corsHeaders []
    = (Return (failure "Image generation failed"
                       {| message := "Unexpected end of JSON input" |} corsHeaders), []).
Proof.
  split; [reflexivity|].
  exact (proj1 (unreadable_body_is_500 0 Generate studio garbled corsHeaders []
                  {| message := "Unexpected end of JSON input" |} eq_refl)).
Defined.


(** ** Routing *)

(** The routing logic of [fetch] as it reads, for whatever page [getHTML]
    is given: every request is answered by the row of the routing table
    that its method and path select: every OPTIONS request, whatever its
    path, with status 200, the CORS headers and no body; GET / with the
    given page; POST on the three API paths through the matching handler;
    and anything else with the capability listing, status 200. *)
Lemma fetch_follows_routing_table (getHTML : string) (now : Z) request env :
  fetch getHTML now request env
    = serve getHTML now (route_of (method request) (url_pathname request)) request env
  ∧ (∀ path, route_of "OPTIONS" path = Preflight)
  ∧ (∀ log, serve getHTML now Preflight request env log
            = (Return {| status := 200; headers := corsHeaders; body := BodyNull |}, log))
  ∧ size corsHeaders = 3%nat.
Proof.
  split_and!; [|done..].
  unfold fetch, route_of.
  generalize (method request) (url_pathname request). intros m path.
  destruct (String.eqb_spec m "OPTIONS") as [->|Hm]; [done|].
  rewrite decide_False by done.
  cbn [filter list_filter routing_rows fst snd].
  repeat (match goal with
          | |- context [String.eqb ?a ?b] => destruct (String.eqb_spec a b)
          end; simplify_eq; cbn [andb]).
  all: repeat case_decide; simplify_eq; done.
Qed.

(** C8: whatever the request and the gateway do, the worker resolves to a
    response that carries the three CORS headers with their fixed values,
    next to the headers of the response itself. *)
Theorem cors_on_every_response (getHTML : string) (now : Z) request env log :
  ∃ r log', fetch getHTML now request env log = (Return r, log')
    ∧ corsHeaders ⊆ headers r
    ∧ headers r !! "Access-Control-Allow-Origin" = Some "*"
    ∧ headers r !! "Access-Control-Allow-Methods" = Some "GET, POST, OPTIONS"
    ∧ headers r !! "Access-Control-Allow-Headers" = Some "Content-Type".
Proof.
  assert (∃ r log', fetch getHTML now request env log = (Return r, log')
                    ∧ ∀ k, k ≠ "Content-Type" → headers r !! k = corsHeaders !! k)
    as (r & log' & Hfetch & Hkeep).
  { unfold fetch.
    repeat match goal with
           | |- context [if ?b then _ else _] => destruct b
           end.
    1, 2, 6: eexists _, _; split; [reflexivity|]; intros k Hk; simpl;
      by rewrite ?lookup_insert_ne.
    - apply (handler_resolves now Analyze).
    - apply (handler_resolves now Generate).
    - apply (handler_resolves now Transform). }
  exists r, log'. split_and!; [done| |by rewrite Hkeep..].
  apply map_subseteq_spec. intros k v Hk. rewrite Hkeep; [done|].
  intros ->. by vm_compute in Hk.
Qed.

(** ** The description *)

Lemma string_or_description_of output fallback :
  string_or output fallback = description_of output fallback.
Proof. by destruct output as [[|a s]|]. Qed.




(** ** The gateway calls of a handler *)

(** X1: The models a handler calls form an initial segment of its plan: the
    calls are made in the order of the source, each model at most once
    (nothing is retried), [analyzeImage] never reaches the synthesis model
    and [generateImage] never reaches the classifier or the text model. *)
Theorem calls_follow_plan (now : Z) (h : endpoint) env request hs log :
  ∃ calls, calls_made (handler now h env request hs) log calls
           ∧ map call_model calls `prefix_of` call_plan h.
Proof.
  unfold calls_made. destruct h; async_unfold.
  all: repeat case_match; simplify_eq/=.
  all: rewrite <-?app_assoc; eexists; (split; [try reflexivity; by rewrite app_nil_r|]).
  all: simpl; eexists; reflexivity.
Qed.

(** X2: When the classifier fails, the handler answers with its 500 envelope
    carrying the gateway's message, and the text and synthesis models are
    not called: the log grows by the classifier call alone. *)
Theorem classifier_failure_aborts (now : Z) (h : endpoint) env request hs log fd bytes e :
  h ≠ Generate →
  formData request = Return fd →
  FormData_get "image" fd = Some (EntryFile bytes) →
  run (AI env) log resnet_50 (ImageInput bytes) = Throw e →
  handler now h env request hs log
  = (Return (failure (failure_text h) e hs),
     (log ++ [call resnet_50 (ImageInput bytes)])%list).
Proof.
  intros Hh Hfd Himage Hthrow.
  destruct h; [|done|]; async_unfold; rewrite Hfd, Himage;
    cbn [entry_truthy negb arrayBuffer]; by rewrite Hthrow.
Qed.

Lemma classifier_failure_aborts_witness :
  let env := {| AI := {| run := λ _ _ _, Throw {| message := "model offline" |} |} |} in
  handler 0 Analyze env (photo_in_style "cartoon") corsHeaders []
  = (Return (failure "Image analysis failed" {| message := "model offline" |} corsHeaders),
     [call resnet_50 (ImageInput photo)]).
Proof.
  intros env.
  refine (classifier_failure_aborts 0 Analyze env (photo_in_style "cartoon") corsHeaders []
            [("image", EntryFile photo); ("style", EntryString "cartoon")] photo
            {| message := "model offline" |} _ eq_refl eq_refl eq_refl).
  discriminate.
Defined.

(** X3: When the text model fails in [transformImage], no image is synthesised:
    the handler answers with its 500 envelope after two calls. *)
Theorem description_failure_aborts (now : Z) env request hs log fd bytes items e :
  let customPrompt := entry_or (FormData_get "prompt" fd) "" in
  let classified := (log ++ [call resnet_50 (ImageInput bytes)])%list in
  let describe :=
    ChatInput (user_says (transform_content (topLabels items) customPrompt)) 150 in
  formData request = Return fd →
  FormData_get "image" fd = Some (EntryFile bytes) →
  run (AI env) log resnet_50 (ImageInput bytes) = Return (OutArray items) →
  run (AI env) classified phi_2 describe = Throw e →
  transformImage now env request hs log
  = (Return (failure "Image transformation failed" e hs),
     (classified ++ [call phi_2 describe])%list).
Proof.
  intros customPrompt classified describe Hfd Himage Hclassify Hthrow.
  async_unfold. rewrite Hfd, Himage. cbn [entry_truthy negb arrayBuffer].
  rewrite Hclassify. cbn [Array_receiver].
  fold customPrompt. unfold describe, classified, call, user_says in Hthrow.
  by rewrite Hthrow.
Qed.

Lemma description_failure_aborts_witness :
  let env := {| AI := {| run := λ _ model _,
                 if String.eqb model resnet_50 then Return (OutArray tabby)
                 else Throw {| message := "model offline" |} |} |} in
  transformImage 0 env (photo_in_style "cartoon") corsHeaders []
  = (Return (failure "Image transformation failed" {| message := "model offline" |}
               corsHeaders),
     [call resnet_50 (ImageInput photo);
      call phi_2 (ChatInput (user_says "Describe this image for AI generation. Content: tabby. ")
                            150)]).
Proof.
  intros env.
  exact (description_failure_aborts 0 env (photo_in_style "cartoon") corsHeaders []
           [("image", EntryFile photo); ("style", EntryString "cartoon")] photo tabby
           {| message := "model offline" |} eq_refl eq_refl eq_refl eq_refl).
Defined.

(** X4: An [image] entry that is a non-empty text field, not a file, passes the
    presence check and then fails at [arrayBuffer]: the answer is the 500
    envelope, not a 400, and the gateway is not called. *)
Theorem text_image_field_is_500 (now : Z) (h : endpoint) env request hs log fd a s :
  h ≠ Generate →
  formData request = Return fd →
  FormData_get "image" fd = Some (EntryString (String a s)) →
  ∃ e, handler now h env request hs log = (Return (failure (failure_text h) e hs), log)
       ∧ status (failure (failure_text h) e hs) = 500.
Proof.
  intros Hh Hfd Himage. eexists. split; [|done].
  destruct h; [|done|]; async_unfold; by rewrite Hfd, Himage.
Qed.

Lemma text_image_field_is_500_witness :
  let request := {| method := "POST"; url_pathname := "/api/analyze-image";
                    formData := Return [("image", EntryString "cat.png")];
                    json_body := Throw (TypeError "not JSON") |} in
  ∃ e, handler 0 Analyze studio request corsHeaders []
       = (Return (failure "Image analysis failed" e corsHeaders), [])
       ∧ status (failure "Image analysis failed" e corsHeaders) = 500.
Proof.
  intros request.
  refine (text_image_field_is_500 0 Analyze studio request corsHeaders []
            [("image", EntryString "cat.png")] "c"%char "at.png" _ eq_refl eq_refl).
  discriminate.
Defined.

(** ** Status codes and media types *)

(** Membership in a list written out. *)
Ltac in_list := rewrite ?elem_of_cons; repeat first [left; reflexivity | right].
Ltac not_in_list H :=
  revert H; rewrite ?elem_of_cons, ?elem_of_nil; intros H;
  repeat (destruct H as [H|H]; [first [discriminate H | congruence]|]); contradiction.

(** X5: [analyzeImage] and [transformImage] answer 400 exactly when the form
    was read and its [image] entry is absent or an empty text field. *)
Theorem bad_request_iff_no_image (now : Z) (h : endpoint) env request hs log r log' :
  h ≠ Generate →
  handler now h env request hs log = (Return r, log') →
  status r = 400
  ↔ ∃ fd, formData request = Return fd
          ∧ FormData_get "image" fd ∈ [None; Some (EntryString "")].
Proof.
  intros Hh Hrun. destruct h; [|done|]; async_unfold.
  all: destruct (formData request) as [fd|e0].
  all: try destruct (FormData_get "image" fd) as [[[|a s]|bytes]|] eqn:Himage.
  all: cbn [entry_truthy negb arrayBuffer String.eqb] in Hrun.
  all: repeat case_match; simplify_eq/=.
  all: split; [first [discriminate | intros _; eexists; split; [done|rewrite Himage; in_list]]|].
  all: intros (fd' & Hfd' & Hin); try done; simplify_eq.
  all: revert Hin; rewrite Himage; intros Hin; not_in_list Hin.
Qed.

Lemma bad_request_iff_no_image_witness :
  let request := {| method := "POST"; url_pathname := "/api/transform-image";
                    formData := Return [("image", EntryString ""); ("style", EntryString "cartoon")];
                    json_body := Throw (TypeError "not JSON") |} in
  status (bad_request "No image provided" corsHeaders) = 400
  ↔ ∃ fd, formData request = Return fd
          ∧ FormData_get "image" fd ∈ [None; Some (EntryString "")].
Proof.
  intros request.
  refine (bad_request_iff_no_image 0 Transform studio request corsHeaders []
            (bad_request "No image provided" corsHeaders) [] _ eq_refl).
  discriminate.
Defined.

(** X6: For a JSON object body, [generateImage] answers 400 exactly when
    [prompt] is absent, [null], [false], [0] or the empty string. *)
Theorem prompt_required_iff_falsy (now : Z) env request hs log props r log' :
  json_body request = Return (JObject props) →
  generateImage now env request hs log = (Return r, log') →
  status r = 400 ↔ get_own "prompt" props ∈ falsy_prompts.
Proof.
  intros Hbody Hrun. async_unfold. rewrite Hbody in Hrun. cbn [destructure] in Hrun.
  unfold falsy_prompts.
  destruct (get_own "prompt" props) as [[| [|] | n | s | elems | members]|];
    cbn [ToBoolean_opt ToBoolean negb] in Hrun.
  all: repeat match goal with
              | H : context [String.eqb ?a ?b] |- _ =>
                  destruct (String.eqb_spec a b); subst; cbn [negb] in H
              end.
  all: repeat case_match; simplify_eq/=.
  all: split; [first [discriminate | intros _; in_list]|].
  all: try done; intros Hin; not_in_list Hin.
Qed.

Lemma prompt_required_iff_falsy_witness :
  let request := {| method := "POST"; url_pathname := "/api/generate-image";
                    formData := Throw (TypeError "not a form");
                    json_body := Return (JObject [("prompt", JNumber "0")]) |} in
  status (bad_request "Prompt is required" corsHeaders) = 400
  ↔ get_own "prompt" [("prompt", JNumber "0")] ∈ falsy_prompts.
Proof.
  intros request.
  exact (prompt_required_iff_falsy 0 studio request corsHeaders []
           [("prompt", JNumber "0")] (bad_request "Prompt is required" corsHeaders) []
           eq_refl eq_refl).
Defined.

(** What a handler called with the CORS headers can resolve to: JSON with
    status 200, 400 or 500, or status 200 with media type image/png and the
    synthesised bytes (or no body at all, when the gateway's answer has no
    image). *)
Abbreviation handler_kind r :=
  (match body r with
   | BodyJSON _ => content_type r = Some "application/json" ∧ status r ∈ [200; 400; 500]
   | BodyBytes _ | BodyNull => content_type r = Some "image/png" ∧ status r = 200
   | BodyText _ => False
   end).

Lemma json_kind (data : json) (st : option Z) :
  st ∈ [None; Some 400; Some 500] →
  handler_kind (Response_json data st corsHeaders).
Proof.
  intros Hst. split; [reflexivity|].
  revert Hst. rewrite !elem_of_cons, elem_of_nil.
  intros [->|[->|[->|[]]]]; cbn [status Response_json default]; in_list.
Qed.

Lemma image_kind (image : option (list byte)) :
  handler_kind (Response_new (image_body image)
                             (<["Content-Type" := "image/png"]> corsHeaders)).
Proof. destruct image; (split; [apply lookup_insert_eq|reflexivity]). Qed.

Lemma handler_response_kinds (now : Z) (h : endpoint) env request log :
  ∃ r log', handler now h env request corsHeaders log = (Return r, log')
            ∧ handler_kind r.
Proof.
  destruct h; async_unfold.
  all: repeat case_match; simplify_eq/=; eexists _, _; (split; [reflexivity|]).
  all: unfold failure, bad_request; first [apply image_kind | apply json_kind; in_list].
Qed.

(** X7: Every response of the worker pairs its body with the matching media
    type, and only JSON bodies carry an error status: image bytes and the
    page always come with status 200. *)
Theorem response_kinds (getHTML : string) (now : Z) request env log :
  ∃ r log', fetch getHTML now request env log = (Return r, log')
    ∧ status r ∈ [200; 400; 500]
    ∧ match body r with
      | BodyJSON _ => content_type r = Some "application/json"
      | BodyBytes _ => content_type r = Some "image/png" ∧ status r = 200
      | BodyText page => content_type r = Some "text/html" ∧ status r = 200 ∧ page = getHTML
      | BodyNull => status r = 200
      end.
Proof.
  assert (∀ h, ∃ r log', handler now h env request corsHeaders log = (Return r, log')
    ∧ status r ∈ [200; 400; 500]
    ∧ match body r with
      | BodyJSON _ => content_type r = Some "application/json"
      | BodyBytes _ => content_type r = Some "image/png" ∧ status r = 200
      | BodyText page => content_type r = Some "text/html" ∧ status r = 200 ∧ page = getHTML
      | BodyNull => status r = 200
      end) as Hhandler.
  { intros h. destruct (handler_response_kinds now h env request log)
      as (r & log' & Hrun & Hkind).
    exists r, log'. split; [done|].
    destruct (body r); try done; destruct Hkind as [Htype Hstatus];
      first [by split | rewrite Hstatus, ?elem_of_cons; auto]. }
  unfold fetch.
  repeat match goal with
         | |- context [if ?b then _ else _] => destruct b
         end.
  1, 2, 6: eexists _, _; split; [reflexivity|]; simpl;
    rewrite ?elem_of_cons; auto.
  - apply (Hhandler Analyze).
  - apply (Hhandler Generate).
  - apply (Hhandler Transform).
Qed.

(** X8: Only a POST to one of the three API paths reaches the gateway: every
    other request is answered without a call. *)
Theorem gateway_needs_api_post (getHTML : string) (now : Z) request env log :
  method request ≠ "POST" ∨ url_pathname request ∉ api_paths →
  (fetch getHTML now request env log).2 = log.
Proof.
  intros Hother. unfold fetch.
  destruct (String.eqb_spec (method request) "OPTIONS"); [done|].
  destruct (String.eqb_spec (url_pathname request) "/");
    destruct (String.eqb_spec (method request) "GET"); cbn [andb]; try done.
  all: destruct (String.eqb_spec (method request) "POST") as [Hpost|Hpost];
    rewrite ?andb_false_r; try done.
  all: destruct Hother as [Hm|Hpath]; [done|].
  all: unfold api_paths in Hpath; rewrite !not_elem_of_cons in Hpath;
    destruct Hpath as (H1 & H2 & H3 & _).
  all: by rewrite !(proj2 (String.eqb_neq _ _)) by done.
Qed.

Lemma gateway_needs_api_post_witness :
  let request := {| method := "GET"; url_pathname := "/api/generate-image";
                    formData := Throw (TypeError "no body");
                    json_body := Throw (TypeError "no body") |} in
  (fetch "<html>" 0 request studio []).2 = [].
Proof.
  intros request.
  refine (gateway_needs_api_post "<html>" 0 request studio [] _).
  left. discriminate.
Defined.

(** ** Styles *)

(** A row of the table is selected by its key: the own member shadows
    whatever the prototype offers, and a template is never empty. *)
Lemma compose_own (stylePrompts : list (string * string)) (style template : string) :
  get_own style stylePrompts = Some template →
  template ≠ "" →
  compose stylePrompts style = template.
Proof.
  intros Hown Hne. unfold compose, Get. rewrite Hown.
  unfold property_or. cbn [property_truthy].
  by destruct template.
Qed.

Lemma Object_prototype_undefined (key : string) :
  key ∉ inherited_names → Object_prototype key = PUndefined.
Proof.
  unfold inherited_names. rewrite !not_elem_of_cons.
  intros (H1 & H2 & H3 & H4 & H5 & H6 & H7 & H8 & H9 & H10 & H11 & H12 & _).
  unfold Object_prototype. cbn [existsb].
  by rewrite !(proj2 (String.eqb_neq key _)) by done.
Qed.

(** The rows of a style table, read by key. *)
Lemma style_table_rows (h : endpoint) (prompt style template : string) :
  (style, template) ∈ style_table h prompt →
  get_own style (style_table h prompt) = Some template ∧ template ≠ "".
Proof.
  destruct h; unfold style_table, generate_stylePrompts, transform_stylePrompts;
    rewrite !elem_of_cons, elem_of_nil;
    intros [H|[H|[H|[H|[]]]]]; injection H as -> ->; by split.
Qed.

(** X9: The four styles are told apart: for one and the same text, two
    different keys of a table compose two different prompts. *)
Theorem known_styles_distinct (h : endpoint) (prompt s1 s2 : string) :
  s1 ∈ known_styles → s2 ∈ known_styles → s1 ≠ s2 →
  compose (style_table h prompt) s1 ≠ compose (style_table h prompt) s2.
Proof.
  unfold known_styles. rewrite !elem_of_cons, !elem_of_nil.
  intros [->|[->|[->|[->|[]]]]] [->|[->|[->|[->|[]]]]] Hne; try done.
  all: destruct h; vm_compute; discriminate.
Qed.

Lemma known_styles_distinct_witness :
  compose (generate_stylePrompts "a cat") "artistic"
  ≠ compose (generate_stylePrompts "a cat") "abstract".
Proof.
  refine (known_styles_distinct Generate "a cat" "artistic" "abstract" _ _ _).
  - unfold known_styles. rewrite !elem_of_cons. right. left. reflexivity.
  - unfold known_styles. rewrite !elem_of_cons. right. right. right. left. reflexivity.
  - discriminate.
Defined.

(** ** The success paths *)

(** X10: [generateImage] with a non-empty text prompt and one of the four styles
    makes one call: the synthesis model, with the row of that style filled
    with the prompt as it was sent, the timestamp suffix and 20 steps.  The
    bytes of the answer are returned unchanged, status 200, image/png. *)
Theorem generate_success (now : Z) env request hs log props a p style template
    response image :
  json_body request = Return (JObject props) →
  get_own "prompt" props = Some (JString (String a p)) →
  get_own "style" props = Some (JString style) →
  (style, template) ∈ generate_stylePrompts (String a p) →
  run (AI env) log stable_diffusion_xl (synthesis_input template now)
    = Return (OutObject response (Some image)) →
  generateImage now env request hs log
  = (Return {| status := 200;
               headers := <["Content-Type" := "image/png"]> hs;
               body := BodyBytes image |},
     (log ++ [call stable_diffusion_xl (synthesis_input template now)])%list).
Proof.
  intros Hbody Hprompt Hstyle Hrow Hrun.
  apply (style_table_rows Generate) in Hrow as [Hown Hne]. cbn [style_table] in Hown.
  async_unfold. rewrite Hbody. cbn [destructure]. rewrite Hprompt, Hstyle.
  cbn [default id ToBoolean_opt ToBoolean String.eqb negb ToString_opt ToString].
  rewrite (compose_own _ _ _ Hown Hne). by rewrite Hrun.
Qed.

Lemma generate_success_witness :
  generateImage 7 studio (a_cat_in_style "cartoon") corsHeaders []
  = (Return {| status := 200;
               headers := <["Content-Type" := "image/png"]> corsHeaders;
               body := BodyBytes [x01; x02]%byte |},
     [call stable_diffusion_xl
        (SynthInput "cartoon style a cat, animated, colorful timestamp:7" 20)]).
Proof.
  refine (generate_success 7 studio (a_cat_in_style "cartoon") corsHeaders []
            [("prompt", JString "a cat"); ("style", JString "cartoon")]
            "a"%char " cat" "cartoon" "cartoon style a cat, animated, colorful"
            None [x01; x02]%byte eq_refl eq_refl eq_refl _ eq_refl).
  unfold generate_stylePrompts. rewrite !elem_of_cons. right. right. left. reflexivity.
Defined.

(** X11: [transformImage] with an image file and one of the four styles makes
    three calls in order: the classifier on the bytes of the file, the text
    model with the top labels (and the custom instruction, if any) and a
    limit of 150 tokens, and the synthesis model with the styled final
    prompt.  The bytes of the last answer are returned unchanged. *)
Theorem transform_success (now : Z) env request hs log fd bytes items text style template
    response image :
  let customPrompt := entry_or (FormData_get "prompt" fd) "" in
  let labels := topLabels items in
  let classify := call resnet_50 (ImageInput bytes) in
  let describe :=
    call phi_2 (ChatInput (user_says (transform_content labels customPrompt)) 150) in
  let synthesise := call stable_diffusion_xl (synthesis_input template now) in
  let baseDescription :=
    description_of (get_response text) ("An image with " +:+ labels) in
  formData request = Return fd →
  FormData_get "image" fd = Some (EntryFile bytes) →
  FormData_get "style" fd = Some (EntryString style) →
  (style, template)
    ∈ transform_stylePrompts (transform_finalPrompt baseDescription customPrompt) →
  run (AI env) log resnet_50 (ImageInput bytes) = Return (OutArray items) →
  run (AI env) (log ++ [classify])%list phi_2 (call_input describe) = Return text →
  run (AI env) (log ++ [classify; describe])%list stable_diffusion_xl
      (call_input synthesise)
    = Return (OutObject response (Some image)) →
  transformImage now env request hs log
  = (Return {| status := 200;
               headers := <["Content-Type" := "image/png"]> hs;
               body := BodyBytes image |},
     (log ++ [classify; describe; synthesise])%list).
Proof.
  intros customPrompt labels classify describe synthesise baseDescription
    Hfd Himage Hstyle Hrow Hclassify Hdescribe Hsynth.
  apply (style_table_rows Transform) in Hrow as [Hown Hne]. cbn [style_table] in Hown.
  assert (style ≠ "") as Hstyle_ne.
  { intros ->. revert Hown. unfold transform_stylePrompts.
    by rewrite !get_own_cons_ne by done. }
  async_unfold. rewrite Hfd, Himage, Hstyle. cbn [entry_truthy negb arrayBuffer].
  rewrite Hclassify. cbn [Array_receiver]. fold labels customPrompt.
  unfold describe, classify, call, user_says in Hdescribe. cbn [call_input] in Hdescribe.
  rewrite Hdescribe. rewrite string_or_description_of. fold baseDescription.
  assert (entry_or (Some (EntryString style)) "realistic" = EntryString style) as ->.
  { by destruct style. }
  cbn [entry_ToString]. rewrite (compose_own _ _ _ Hown Hne).
  unfold synthesise, describe, classify, call, user_says in Hsynth.
  cbn [call_input] in Hsynth.
  rewrite <-!app_assoc. cbn [app].
  by rewrite Hsynth.
Qed.

Lemma transform_success_witness :
  transformImage 7 studio (photo_in_style "cartoon") corsHeaders []
  = (Return {| status := 200;
               headers := <["Content-Type" := "image/png"]> corsHeaders;
               body := BodyBytes [x01; x02]%byte |},
     [call resnet_50 (ImageInput photo);
      call phi_2 (ChatInput (user_says "Describe this image for AI generation. Content: tabby. ")
                            150);
      call stable_diffusion_xl (SynthInput "cartoon A cat, animated style timestamp:7" 20)]).
Proof.
  refine (transform_success 7 studio (photo_in_style "cartoon") corsHeaders []
            [("image", EntryFile photo); ("style", EntryString "cartoon")] photo tabby
            (OutObject (Some "A cat") None) "cartoon" "cartoon A cat, animated style"
            None [x01; x02]%byte eq_refl eq_refl eq_refl _ eq_refl eq_refl eq_refl).
  unfold transform_stylePrompts. rewrite !elem_of_cons. right. right. left. reflexivity.
Defined.

(** X12: On its success path [analyzeImage] makes two calls: the classifier on
    the bytes of the uploaded file and the text model with the instruction
    built from the top labels and a limit of 200 tokens. *)
Theorem analyze_success_calls env request hs log fd bytes items text :
  let classify := call resnet_50 (ImageInput bytes) in
  let describe :=
    call phi_2 (ChatInput (user_says (analyze_content (topLabels items))) 200) in
  formData request = Return fd →
  FormData_get "image" fd = Some (EntryFile bytes) →
  run (AI env) log resnet_50 (ImageInput bytes) = Return (OutArray items) →
  run (AI env) (log ++ [classify])%list phi_2 (call_input describe) = Return text →
  ∃ r, analyzeImage env request hs log = (Return r, (log ++ [classify; describe])%list)
       ∧ status r = 200.
Proof.
  intros classify describe Hfd Himage Hclassify Hdescribe.
  async_unfold. rewrite Hfd, Himage. cbn [entry_truthy negb arrayBuffer].
  rewrite Hclassify. cbn [Array_receiver].
  unfold describe, classify, call, user_says in Hdescribe. cbn [call_input] in Hdescribe.
  rewrite Hdescribe. eexists. split.
  - by rewrite <-app_assoc.
  - reflexivity.
Qed.

Lemma analyze_success_calls_witness :
  ∃ r, analyzeImage studio (photo_in_style "cartoon") corsHeaders []
       = (Return r,
          [call resnet_50 (ImageInput photo);
           call phi_2 (ChatInput (user_says (analyze_content "tabby")) 200)])
       ∧ status r = 200.
Proof.
  exact (analyze_success_calls studio (photo_in_style "cartoon") corsHeaders []
           [("image", EntryFile photo); ("style", EntryString "cartoon")] photo tabby
           (OutObject (Some "A cat") None) eq_refl eq_refl eq_refl eq_refl).
Defined.

(** ** Defaults and fallbacks *)

(** X13: In [generateImage] a style that is absent, [null], or a string that is
    neither a key of the table nor the name of an inherited member gives
    the very outcome of style [realistic]. *)
Theorem generate_style_fallback (now : Z) env request request' hs log props props' :
  json_body request = Return (JObject props) →
  json_body request' = Return (JObject props') →
  get_own "prompt" props' = get_own "prompt" props →
  get_own "style" props' = Some (JString "realistic") →
  (get_own "style" props = None
   ∨ get_own "style" props = Some JNull
   ∨ (∃ s, get_own "style" props = Some (JString s)
           ∧ (s ∉ known_styles) ∧ (s ∉ inherited_names))) →
  generateImage now env request hs log = generateImage now env request' hs log.
Proof.
  intros Hbody Hbody' Hprompt Hstyle' Hstyle.
  assert (∃ s, ToString (default (JString "realistic") (get_own "style" props)) = Return s
               ∧ ∀ p, compose (generate_stylePrompts p) s
                      = compose (generate_stylePrompts p) "realistic")
    as (s & Hs & Hcompose).
  { destruct Hstyle as [->|[->|(s & -> & Hknown & Hinherited)]].
    - by exists "realistic".
    - exists "null". split; [done|]. intros p.
      apply (compose_unknown_style Generate); [|reflexivity].
      rewrite !not_elem_of_cons. repeat split; try discriminate. apply not_elem_of_nil.
    - exists s. split; [done|]. intros p.
      apply (compose_unknown_style Generate); [done|].
      by apply Object_prototype_undefined. }
  async_unfold. rewrite Hbody, Hbody'. cbn [destructure].
  rewrite Hprompt, Hstyle', Hs. cbn [default id ToString].
  destruct (negb _); [done|].
  destruct (ToString_opt _); [|done].
  by rewrite Hcompose.
Qed.

Lemma generate_style_fallback_witness :
  generateImage 7 studio (a_cat_in_style "vaporwave") corsHeaders []
  = generateImage 7 studio (a_cat_in_style "realistic") corsHeaders [].
Proof.
  refine (generate_style_fallback 7 studio (a_cat_in_style "vaporwave")
            (a_cat_in_style "realistic") corsHeaders []
            [("prompt", JString "a cat"); ("style", JString "vaporwave")]
            [("prompt", JString "a cat"); ("style", JString "realistic")]
            eq_refl eq_refl eq_refl eq_refl _).
  right. right. exists "vaporwave". split; [reflexivity|].
  split.
  - unfold known_styles. rewrite !not_elem_of_cons.
    repeat split; try discriminate. apply not_elem_of_nil.
  - unfold inherited_names. rewrite !not_elem_of_cons.
    repeat split; try discriminate. apply not_elem_of_nil.
Defined.

(** X14: In [transformImage] a [style] entry that is absent, empty, a file, or a
    text that is neither a key of the table nor the name of an inherited
    member gives the very outcome of style [realistic]. *)
Theorem transform_style_fallback (now : Z) env request request' hs log fd fd' :
  formData request = Return fd →
  formData request' = Return fd' →
  FormData_get "image" fd' = FormData_get "image" fd →
  FormData_get "prompt" fd' = FormData_get "prompt" fd →
  FormData_get "style" fd' = Some (EntryString "realistic") →
  (FormData_get "style" fd = None
   ∨ (∃ bytes, FormData_get "style" fd = Some (EntryFile bytes))
   ∨ (∃ s, FormData_get "style" fd = Some (EntryString s)
           ∧ (s ∉ known_styles) ∧ (s ∉ inherited_names))) →
  transformImage now env request hs log = transformImage now env request' hs log.
Proof.
  intros Hfd Hfd' Himage Hprompt Hstyle' Hstyle.
  assert (∀ p, compose (transform_stylePrompts p)
                 (entry_ToString (entry_or (FormData_get "style" fd) "realistic"))
               = compose (transform_stylePrompts p) "realistic") as Hcompose.
  { intros p. destruct Hstyle as [->|[[bytes ->]|(s & -> & Hknown & Hinherited)]].
    - done.
    - apply (compose_unknown_style Transform); [|reflexivity].
      rewrite !not_elem_of_cons. repeat split; try discriminate. apply not_elem_of_nil.
    - destruct s as [|a s]; [done|]. cbn [entry_or entry_truthy String.eqb negb entry_ToString].
      apply (compose_unknown_style Transform); [done|].
      by apply Object_prototype_undefined. }
  async_unfold. rewrite Hfd, Hfd', Himage, Hprompt, Hstyle'.
  cbn [entry_or entry_truthy String.eqb negb entry_ToString] in *.
  destruct (negb _); [done|].
  destruct (arrayBuffer _); [|done].
  destruct (run (AI env) log resnet_50 _); [|done].
  destruct (Array_receiver _); [|done].
  destruct (run (AI env) _ phi_2 _); [|done].
  by rewrite Hcompose.
Qed.

Lemma transform_style_fallback_witness :
  let bare := {| method := "POST"; url_pathname := "/api/transform-image";
                 formData := Return [("image", EntryFile photo)];
                 json_body := Throw (TypeError "not JSON") |} in
  let explicit := {| method := "POST"; url_pathname := "/api/transform-image";
                     formData := Return [("image", EntryFile photo);
                                         ("style", EntryString "realistic")];
                     json_body := Throw (TypeError "not JSON") |} in
  transformImage 7 studio bare corsHeaders [] = transformImage 7 studio explicit corsHeaders [].
Proof.
  intros bare explicit.
  refine (transform_style_fallback 7 studio bare explicit corsHeaders []
            [("image", EntryFile photo)]
            [("image", EntryFile photo); ("style", EntryString "realistic")]
            eq_refl eq_refl eq_refl eq_refl eq_refl _).
  left. reflexivity.
Defined.

(** ** Labels and descriptions *)

(** X15: With three classifier results or fewer, [topLabels] joins the labels of
    all of them, without a separator at either end; with none it is empty. *)
Theorem topLabels_short (analysis : list ClassificationItem) :
  (length analysis ≤ 3)%nat →
  topLabels analysis = String.concat ", " (map label analysis)
  ∧ (analysis = [] → topLabels analysis = "").
Proof.
  intros Hshort. split.
  - unfold topLabels. rewrite join_concat, (slice_0_take 3).
    by rewrite take_ge by done.
  - by intros ->.
Qed.

Lemma topLabels_short_witness :
  topLabels tabby = String.concat ", " (map label tabby)
  ∧ (tabby = [] → topLabels tabby = "").
Proof.
  refine (topLabels_short tabby _). simpl. lia.
Defined.

Lemma string_or_nonempty (output : option string) (fallback : string) :
  fallback ≠ "" → string_or output fallback ≠ "".
Proof.
  intros Hfallback. unfold string_or. destruct output as [v|]; [|done].
  by destruct (String.eqb_spec v "").
Qed.

(** X16: Whenever [analyzeImage] answers 200, its JSON body has the three
    members [analysis], [description] and [prompt_suggestion]; the
    description is never empty, and the suggestion is the description after
    the words "Create a new image: ". *)
Theorem analysis_response_shape env request hs log r log' :
  analyzeImage env request hs log = (Return r, log') →
  status r = 200 →
  ∃ analysis description,
    body r = BodyJSON (JObject
               [("analysis", analysis);
                ("description", JString description);
                ("prompt_suggestion", JString ("Create a new image: " +:+ description))])
    ∧ description ≠ "".
Proof.
  async_unfold. intros Hrun Hstatus.
  repeat case_match; simplify_eq/=.
  eexists _, _. split; [reflexivity|].
  by apply string_or_nonempty.
Qed.

Lemma analysis_response_shape_witness :
  ∃ analysis description,
    body (Response_json
            (JObject [("analysis", JArray (map ClassificationItem_json tabby));
                      ("description", JString "A cat");
                      ("prompt_suggestion", JString "Create a new image: A cat")])
            None corsHeaders)
    = BodyJSON (JObject
               [("analysis", analysis);
                ("description", JString description);
                ("prompt_suggestion", JString ("Create a new image: " +:+ description))])
    ∧ description ≠ "".
Proof.
  exact (analysis_response_shape studio (photo_in_style "cartoon") corsHeaders []
           (Response_json
              (JObject [("analysis", JArray (map ClassificationItem_json tabby));
                        ("description", JString "A cat");
                        ("prompt_suggestion", JString "Create a new image: A cat")])
              None corsHeaders)
           [call resnet_50 (ImageInput photo);
            call phi_2 (ChatInput (user_says (analyze_content "tabby")) 200)]
           eq_refl eq_refl).
Defined.

(** A failing synthesis call and the 500 it causes. *)
Lemma status_500_only_from_catch_witness :
  ∃ e, handler_try 0 Transform studio_without_paint (photo_in_style "realistic")
         corsHeaders []
       = (Throw e,
          (handler 0 Transform studio_without_paint (photo_in_style "realistic")
             corsHeaders []).2).
Proof.
  exact (status_500_only_from_catch 0 Transform studio_without_paint
           (photo_in_style "realistic") corsHeaders []
           (failure "Image transformation failed" {| message := "upstream timeout" |}
              corsHeaders)
           _ eq_refl eq_refl).
Defined.

(** X17: A body that is valid JSON but neither an object nor [null] (an array,
    a string, a number, a boolean) has no [prompt] to read: it is answered
    400 like an object without the member, and the gateway is not called. *)
Theorem non_object_body_rejected (now : Z) env request hs log value :
  json_body request = Return value →
  value ≠ JNull →
  (∀ props, value ≠ JObject props) →
  generateImage now env request hs log
  = (Return (bad_request "Prompt is required" hs), log).
Proof.
  intros Hbody Hnull Hobject. async_unfold. rewrite Hbody.
  destruct value; try done. by destruct (Hobject props).
Qed.

Lemma non_object_body_rejected_witness :
  let request := {| method := "POST"; url_pathname := "/api/generate-image";
                    formData := Throw (TypeError "not a form");
                    json_body := Return (JArray [JString "a cat"]) |} in
  generateImage 0 studio request corsHeaders []
  = (Return (bad_request "Prompt is required" corsHeaders), []).
Proof.
  intros request.
  refine (non_object_body_rejected 0 studio request corsHeaders []
            (JArray [JString "a cat"]) eq_refl _ _); discriminate.
Defined.

(** ** The awaited steps *)

(** Once a request has reached the synthesis call, the [try] block makes
    that call, whatever time it is, and ends as the gateway answers. *)
Lemma reaches_synthesis_run (now : Z) (h : endpoint) env request hs log styled before :
  reaches_synthesis env request log h styled before →
  handler_try now h env request hs log
  = match run (AI env) (log ++ before)%list stable_diffusion_xl
            (call_input (synthesis_call styled now)) with
    | Return out =>
        (Return (Response_new (image_body (get_image out))
                              (<["Content-Type" := "image/png"]> hs)),
         (log ++ before ++ [synthesis_call styled now])%list)
    | Throw e => (Throw e, (log ++ before ++ [synthesis_call styled now])%list)
    end.
Proof.
  intros [props prompt p s Hbody Hprompt Htruthy Hp Hs
         | fd bytes items text Hfd Himage Hclassify Hdescribe].
  - async_unfold. rewrite Hbody. cbn [destructure]. rewrite Hprompt.
    cbn [ToBoolean_opt ToString_opt]. rewrite Htruthy, Hp, Hs. cbn [negb].
    rewrite app_nil_r. unfold synthesis_call, call, synthesis_input. cbn [call_input app].
    by destruct (run _ _ _ _).
  - async_unfold. rewrite Hfd, Himage. cbn [entry_truthy negb arrayBuffer].
    rewrite Hclassify. cbn [Array_receiver].
    unfold transform_describe_call, classify_call, call, user_says in *.
    cbn [call_input] in Hdescribe. rewrite Hdescribe.
    rewrite string_or_description_of.
    unfold synthesis_call, call, synthesis_input. cbn [call_input].
    rewrite <-!app_assoc. cbn [app].
    by destruct (run _ _ _ _).
Qed.

(** Each throwing step ends the [try] block with the error it throws. *)
Lemma throwing_step_throws (now : Z) (h : endpoint) env request hs log e log' :
  throwing_step now env request log h e log' →
  handler_try now h env request hs log = (Throw e, log').
Proof.
  intros [h' e' Hh Hfd
         | h' fd a s Hh Hfd Himage
         | h' fd bytes e' Hh Hfd Himage Hclassify
         | h' fd bytes response image Hh Hfd Himage Hclassify
         | fd bytes items e' Hfd Himage Hclassify Hdescribe
         | fd bytes items e' Hfd Himage Hclassify Hdescribe
         | e' Hbody
         | Hbody
         | props prompt e' Hbody Hprompt Htruthy Hp
         | props prompt p e' Hbody Hprompt Htruthy Hp Hs
         | h' styled before e' Hreach Hsynth].
  1-4: destruct h'; [|done|]; async_unfold; rewrite Hfd; try done.
  1-6: rewrite Himage; cbn [entry_truthy String.eqb negb arrayBuffer]; try done.
  1-4: by rewrite Hclassify.
  - async_unfold. rewrite Hfd, Himage. cbn [entry_truthy negb arrayBuffer].
    rewrite Hclassify. cbn [Array_receiver].
    unfold analyze_describe_call, classify_call, call, user_says in *.
    cbn [call_input] in Hdescribe. rewrite Hdescribe. by rewrite <-app_assoc.
  - async_unfold. rewrite Hfd, Himage. cbn [entry_truthy negb arrayBuffer].
    rewrite Hclassify. cbn [Array_receiver].
    unfold transform_describe_call, classify_call, call, user_says in *.
    cbn [call_input] in Hdescribe. rewrite Hdescribe. by rewrite <-app_assoc.
  - async_unfold. by rewrite Hbody.
  - async_unfold. by rewrite Hbody.
  - async_unfold. rewrite Hbody. cbn [destructure]. rewrite Hprompt.
    cbn [ToBoolean_opt ToString_opt]. by rewrite Htruthy, Hp.
  - async_unfold. rewrite Hbody. cbn [destructure]. rewrite Hprompt.
    cbn [ToBoolean_opt ToString_opt]. by rewrite Htruthy, Hp, Hs.
  - rewrite (reaches_synthesis_run now h' env request hs log styled before Hreach).
    by rewrite Hsynth.
Qed.

(** X20: The list of throwing steps is complete: a [try] block that ends with
    a thrown error has gone through one of them, with that error and that
    log. *)
Theorem throwing_steps_complete (now : Z) (h : endpoint) env request hs log e log' :
  handler_try now h env request hs log = (Throw e, log') →
  throwing_step now env request log h e log'.
Proof.
  destruct h.
  - async_unfold.
    destruct (formData request) as [fd|e0] eqn:Hfd;
      [|intros [= <- <-]; by apply formData_rejects].
    destruct (FormData_get "image" fd) as [[[|a s]|bytes]|] eqn:Himage;
      cbn [entry_truthy String.eqb negb arrayBuffer]; try discriminate.
    { intros [= <- <-]. by eapply arrayBuffer_missing. }
    destruct (run (AI env) log resnet_50 _) as [[items|response image]|e0] eqn:Hclassify;
      cbn [Array_receiver].
    + destruct (run (AI env) _ phi_2 _) as [text|e0] eqn:Hdescribe; [discriminate|].
      intros [= <- <-]. rewrite <-app_assoc.
      by eapply analyze_description_throws.
    + intros [= <- <-]. by eapply analysis_not_an_array.
    + intros [= <- <-]. by eapply classifier_throws.
  - async_unfold.
    destruct (json_body request) as [value|e0] eqn:Hbody;
      [|intros [= <- <-]; by apply json_rejects].
    destruct value as [| | | | |props]; cbn [destructure ToBoolean_opt negb];
      try discriminate.
    { intros [= <- <-]. by apply null_destructured. }
    destruct (get_own "prompt" props) as [prompt|] eqn:Hprompt;
      cbn [ToBoolean_opt ToString_opt negb]; [|discriminate].
    destruct (ToBoolean prompt) eqn:Htruthy; cbn [negb]; [|discriminate].
    destruct (ToString prompt) as [p|e0] eqn:Hp;
      [|intros [= <- <-]; by eapply prompt_not_printable].
    destruct (ToString (default _ _)) as [s|e0] eqn:Hs;
      [|intros [= <- <-]; by eapply style_not_printable].
    destruct (run (AI env) log stable_diffusion_xl _) as [out|e0] eqn:Hsynth;
      [discriminate|].
    intros [= <- <-].
    apply (synthesis_throws now env request log Generate _ []); [|by rewrite app_nil_r].
    by eapply generate_reaches.
  - async_unfold.
    destruct (formData request) as [fd|e0] eqn:Hfd;
      [|intros [= <- <-]; by apply formData_rejects].
    destruct (FormData_get "image" fd) as [[[|a s]|bytes]|] eqn:Himage;
      cbn [entry_truthy String.eqb negb arrayBuffer]; try discriminate.
    { intros [= <- <-]. by eapply arrayBuffer_missing. }
    destruct (run (AI env) log resnet_50 _) as [[items|response image]|e0] eqn:Hclassify;
      cbn [Array_receiver].
    + destruct (run (AI env) _ phi_2 _) as [text|e0] eqn:Hdescribe.
      * rewrite string_or_description_of.
        destruct (run (AI env) _ stable_diffusion_xl _) as [out|e0] eqn:Hsynth;
          [discriminate|].
        intros [= <- <-]. rewrite <-!app_assoc. cbn [app].
        apply (synthesis_throws now env request log Transform _
                 [classify_call bytes; transform_describe_call items fd]);
          [by eapply transform_reaches|].
        by rewrite <-app_assoc in Hsynth.
      * intros [= <- <-]. rewrite <-app_assoc.
        by eapply transform_description_throws.
    + intros [= <- <-]. by eapply analysis_not_an_array.
    + intros [= <- <-]. by eapply classifier_throws.
Qed.

Lemma throwing_steps_complete_witness :
  throwing_step 7 studio_without_paint (photo_in_style "realistic") [] Transform
    {| message := "upstream timeout" |}
    [classify_call photo;
     transform_describe_call tabby [("image", EntryFile photo);
                                    ("style", EntryString "realistic")];
     synthesis_call "photorealistic A cat, high detail" 7].
Proof.
  exact (throwing_steps_complete 7 Transform studio_without_paint
           (photo_in_style "realistic") corsHeaders []
           {| message := "upstream timeout" |} _ eq_refl).
Defined.

(** C2: when a step of a handler's pipeline throws (the body cannot be
    read, the image entry has no bytes to give, a value cannot be printed,
    the gateway fails at the classifier, the text model or the synthesis
    model, or its classification is no array), the handler resolves to the
    one response of its [catch] block: status 500 and the JSON object with
    the handler's fixed text under [error] and the thrown error's message
    under [details]; no image bytes, no partial result, and no call after
    the failing one. *)
Theorem throwing_step_is_caught (now : Z) (h : endpoint) env request hs log e log' :
  throwing_step now env request log h e log' →
  handler now h env request hs log = (Return (failure (failure_text h) e hs), log')
  ∧ status (failure (failure_text h) e hs) = 500
  ∧ body (failure (failure_text h) e hs)
    = BodyJSON (JObject [("error", JString (failure_text h));
                         ("details", JString (message e))]).
Proof.
  intros Hstep.
  apply (throwing_step_throws now h env request hs) in Hstep.
  split_and!; [|done..].
  destruct h; unfold handler, analyzeImage, generateImage, transformImage, try_catch;
    unfold handler_try in Hstep; by rewrite Hstep.
Qed.

(** The synthesis model fails after the classifier and the text model have
    answered. *)
Lemma throwing_step_is_caught_witness :
  let calls := [classify_call photo;
                transform_describe_call tabby [("image", EntryFile photo);
                                               ("style", EntryString "realistic")];
                synthesis_call "photorealistic A cat, high detail" 7] in
  throwing_step 7 studio_without_paint (photo_in_style "realistic") [] Transform
    {| message := "upstream timeout" |} calls
  ∧ handler 7 Transform studio_without_paint (photo_in_style "realistic") corsHeaders []
    = (Return (failure "Image transformation failed" {| message := "upstream timeout" |}
                 corsHeaders), calls).
Proof.
  intros calls.
  assert (throwing_step 7 studio_without_paint (photo_in_style "realistic") [] Transform
            {| message := "upstream timeout" |} calls) as Hstep.
  { apply (synthesis_throws 7 studio_without_paint (photo_in_style "realistic") []
             Transform "photorealistic A cat, high detail"
             [classify_call photo;
              transform_describe_call tabby [("image", EntryFile photo);
                                             ("style", EntryString "realistic")]]
             {| message := "upstream timeout" |}); [|reflexivity].
    exact (transform_reaches studio_without_paint (photo_in_style "realistic") []
             [("image", EntryFile photo); ("style", EntryString "realistic")] photo tabby
             (OutObject (Some "A cat") None) eq_refl eq_refl eq_refl eq_refl). }
  split; [exact Hstep|].
  exact (proj1 (throwing_step_is_caught 7 Transform studio_without_paint
                  (photo_in_style "realistic") corsHeaders [] _ _ Hstep)).
Defined.

(** C3: a request without its required input should be answered 400
    without a gateway call.  It is not when the JSON body of a Generate
    request is the literal [null]: the body has no [prompt], but reading
    the member throws before [!prompt] is tested, and the handler, reached
    through the router, answers with its 500 envelope. *)
Theorem null_body_is_answered_500 (getHTML : string) (now : Z) env log :
  let answer :=
    failure "Image generation failed"
      (TypeError "Cannot destructure property 'prompt' of '(intermediate value)' as it is null.")
      corsHeaders in
  json_body null_request = Return JNull
  ∧ fetch getHTML now null_request env log = (Return answer, log)
  ∧ status answer = 500
  ∧ status answer ≠ 400.
Proof. split_and!; done. Qed.

(** ** The synthesis call *)

Lemma handler_log (now : Z) (h : endpoint) env request hs log :
  (handler now h env request hs log).2 = (handler_try now h env request hs log).2.
Proof.
  destruct h; unfold handler, handler_try, analyzeImage, generateImage, transformImage,
    try_catch.
  all: by repeat case_match.
Qed.

(** A request that has reached the synthesis call makes it: the log grows
    by the calls before it and the call itself. *)
Lemma synthesis_call_made (now : Z) (h : endpoint) env request hs log styled before :
  reaches_synthesis env request log h styled before →
  calls_made (handler now h env request hs) log (before ++ [synthesis_call styled now]).
Proof.
  intros Hreach. unfold calls_made.
  rewrite handler_log, (reaches_synthesis_run now h env request hs log styled before Hreach).
  by destruct (run _ _ _ _).
Qed.

(** Every call to the synthesis model in the log of a handler is the call
    of a request that has reached it. *)
Lemma synthesis_call_origin (now : Z) (h : endpoint) env request hs log calls c :
  calls_made (handler now h env request hs) log calls →
  c ∈ calls →
  call_model c = stable_diffusion_xl →
  ∃ styled before,
    reaches_synthesis env request log h styled before ∧ c = synthesis_call styled now.
Proof.
  unfold calls_made. rewrite handler_log. intros Hcalls Hc Hmodel.
  assert (∀ made, (log ++ made = log ++ calls)%list →
            (∀ x, x ∈ made → call_model x = stable_diffusion_xl →
                  ∃ styled before, reaches_synthesis env request log h styled before
                                   ∧ x = synthesis_call styled now) →
            ∃ styled before, reaches_synthesis env request log h styled before
                             ∧ c = synthesis_call styled now) as Hconclude.
  { intros made Heq Hmade. apply app_inv_head in Heq as ->. by apply Hmade. }
  assert (∀ x : AiCall, x ∈ [] → call_model x = stable_diffusion_xl →
            ∃ styled before, reaches_synthesis env request log h styled before
                             ∧ x = synthesis_call styled now) as Hnone.
  { intros x Hx. by apply elem_of_nil in Hx. }
  destruct h.
  - async_unfold. revert Hcalls.
    destruct (formData request) as [fd|e0] eqn:Hfd; cbn [snd];
      [|intros Heq; apply (Hconclude []); [by rewrite app_nil_r|done]].
    destruct (FormData_get "image" fd) as [[[|a s]|bytes]|] eqn:Himage;
      cbn [entry_truthy String.eqb negb arrayBuffer snd];
      try (intros Heq; apply (Hconclude []); [by rewrite app_nil_r|done]).
    destruct (run (AI env) log resnet_50 _) as [[items|response image]|e0];
      cbn [Array_receiver snd];
      try (intros Heq; apply (Hconclude [classify_call bytes]); [done|];
           intros x Hx%list_elem_of_singleton Hm; by subst x).
    destruct (run (AI env) _ phi_2 _) as [text|e0]; cbn [snd];
      rewrite <-app_assoc; cbn [app];
      intros Heq; apply (Hconclude [classify_call bytes; analyze_describe_call items]);
      try done;
      intros x Hx Hm; revert Hx; rewrite !elem_of_cons, elem_of_nil;
      intros [->|[->|[]]]; discriminate Hm.
  - async_unfold. revert Hcalls.
    destruct (json_body request) as [value|e0] eqn:Hbody; cbn [snd];
      [|intros Heq; apply (Hconclude []); [by rewrite app_nil_r|done]].
    destruct value as [| | | | |props]; cbn [destructure ToBoolean_opt negb snd];
      try (intros Heq; apply (Hconclude []); [by rewrite app_nil_r|done]).
    destruct (get_own "prompt" props) as [prompt|] eqn:Hprompt;
      cbn [ToBoolean_opt ToString_opt negb snd];
      [|intros Heq; apply (Hconclude []); [by rewrite app_nil_r|done]].
    destruct (ToBoolean prompt) eqn:Htruthy; cbn [negb snd];
      [|intros Heq; apply (Hconclude []); [by rewrite app_nil_r|done]].
    destruct (ToString prompt) as [p|e0] eqn:Hp; cbn [snd];
      [|intros Heq; apply (Hconclude []); [by rewrite app_nil_r|done]].
    destruct (ToString (default _ _)) as [s|e0] eqn:Hs; cbn [snd];
      [|intros Heq; apply (Hconclude []); [by rewrite app_nil_r|done]].
    intros Heq.
    apply (Hconclude [synthesis_call (compose (generate_stylePrompts p) s) now]).
    { rewrite <-Heq. by destruct (run (AI env) _ stable_diffusion_xl _). }
    intros x Hx%list_elem_of_singleton _. subst x.
    eexists _, []. split; [by eapply generate_reaches|done].
  - async_unfold. revert Hcalls.
    destruct (formData request) as [fd|e0] eqn:Hfd; cbn [snd];
      [|intros Heq; apply (Hconclude []); [by rewrite app_nil_r|done]].
    destruct (FormData_get "image" fd) as [[[|a s]|bytes]|] eqn:Himage;
      cbn [entry_truthy String.eqb negb arrayBuffer snd];
      try (intros Heq; apply (Hconclude []); [by rewrite app_nil_r|done]).
    destruct (run (AI env) log resnet_50 _) as [[items|response image]|e0] eqn:Hclassify;
      cbn [Array_receiver snd];
      try (intros Heq; apply (Hconclude [classify_call bytes]); [done|];
           intros x Hx%list_elem_of_singleton Hm; by subst x).
    destruct (run (AI env) _ phi_2 _) as [text|e0] eqn:Hdescribe; cbn [snd].
    + rewrite string_or_description_of. intros Heq.
      apply (Hconclude [classify_call bytes; transform_describe_call items fd;
                        synthesis_call
                          (compose
                             (transform_stylePrompts
                                (transform_finalPrompt
                                   (description_of (get_response text)
                                      ("An image with " +:+ topLabels items))
                                   (entry_or (FormData_get "prompt" fd) "")))
                             (entry_ToString (entry_or (FormData_get "style" fd) "realistic")))
                          now]).
      { rewrite <-Heq.
        destruct (run (AI env) _ stable_diffusion_xl _); cbn [snd];
          by rewrite <-!app_assoc. }
      intros x Hx Hm. revert Hx. rewrite !elem_of_cons, elem_of_nil.
      intros [->|[->|[->|[]]]]; try discriminate Hm.
      eexists _, _. split; [by eapply transform_reaches|done].
    + rewrite <-app_assoc; cbn [app].
      intros Heq. apply (Hconclude [classify_call bytes; transform_describe_call items fd]);
        [done|].
      intros x Hx Hm; revert Hx; rewrite !elem_of_cons, elem_of_nil;
        intros [->|[->|[]]]; discriminate Hm.
Qed.

Lemma last_prompt_synthesis (log before : list AiCall) (styled : string) (now : Z) :
  last_prompt (log ++ before ++ [synthesis_call styled now])
  = Some (styled +:+ " timestamp:" +:+ pretty now).
Proof. unfold last_prompt. by rewrite app_assoc, last_snoc. Qed.

(** C9: a handler that reaches the synthesis call sends the prompt
    composed from the request's own text and style in the handler's style
    table, with the timestamp suffix appended and 20 diffusion steps; every
    call to the image-synthesis model that a handler logs is that call; and
    the same request served at two distinct times sends two distinct
    prompts. *)
Theorem synthesis_call_sent (h : endpoint) env request hs log (t1 t2 : Z) :
  t1 ≠ t2 →
  (∀ now styled before,
     reaches_synthesis env request log h styled before →
     calls_made (handler now h env request hs) log
       (before ++ [call stable_diffusion_xl
                     (SynthInput (styled +:+ " timestamp:" +:+ pretty now) 20)]))
  ∧ (∀ now calls c,
       calls_made (handler now h env request hs) log calls →
       c ∈ calls →
       call_model c = stable_diffusion_xl →
       ∃ styled before,
         reaches_synthesis env request log h styled before
         ∧ c = call stable_diffusion_xl
                 (SynthInput (styled +:+ " timestamp:" +:+ pretty now) 20))
  ∧ (∀ styled before,
       reaches_synthesis env request log h styled before →
       last_prompt (handler t1 h env request hs log).2
       ≠ last_prompt (handler t2 h env request hs log).2).
Proof.
  intros Ht. split_and!.
  - intros now styled before Hreach. by apply synthesis_call_made.
  - intros now calls c Hcalls Hc Hmodel. by eapply synthesis_call_origin.
  - intros styled before Hreach.
    rewrite (synthesis_call_made t1 h env request hs log styled before Hreach).
    rewrite (synthesis_call_made t2 h env request hs log styled before Hreach).
    rewrite !last_prompt_synthesis. intros [= Heq].
    by apply timestamp_suffix_inj in Heq.
Qed.

Lemma synthesis_call_sent_witness :
  1700000000000 ≠ 1700000000001
  ∧ reaches_synthesis studio (a_cat_in_style "cartoon") [] Generate
      "cartoon style a cat, animated, colorful" []
  ∧ calls_made (handler 1700000000000 Generate studio (a_cat_in_style "cartoon") corsHeaders)
      []
      [call stable_diffusion_xl
         (SynthInput "cartoon style a cat, animated, colorful timestamp:1700000000000" 20)]
  ∧ last_prompt (handler 1700000000000 Generate studio (a_cat_in_style "cartoon")
                   corsHeaders []).2
    ≠ last_prompt (handler 1700000000001 Generate studio (a_cat_in_style "cartoon")
                     corsHeaders []).2.
Proof.
  assert (1700000000000 ≠ 1700000000001) as Ht by lia.
  assert (reaches_synthesis studio (a_cat_in_style "cartoon") [] Generate
            "cartoon style a cat, animated, colorful" []) as Hreach.
  { exact (generate_reaches studio (a_cat_in_style "cartoon") []
             [("prompt", JString "a cat"); ("style", JString "cartoon")]
             (JString "a cat") "a cat" "cartoon"
             eq_refl eq_refl eq_refl eq_refl eq_refl). }
  destruct (synthesis_call_sent Generate studio (a_cat_in_style "cartoon") corsHeaders []
              1700000000000 1700000000001 Ht) as (Hsent & _ & Hdistinct).
  split_and!; [exact Ht|exact Hreach| |].
  - exact (Hsent 1700000000000 _ _ Hreach).
  - exact (Hdistinct _ _ Hreach).
Defined.
